(** * The embedding client of [src/embedding.py]

    A shallow embedding of the class [Embedding] (constructor,
    [get_embedding], [get_embeddings_batch]) and of the part of Python and of
    the [requests] library the class relies on, followed by the properties
    the specification states about it.

    Conventions.
    - A decoded JSON document is the Python object [json.loads] builds:
      [None], [bool], [int], [float], [str], [list], [dict] with [str] keys.
      A [dict] is a finite map, so duplicate keys do not exist.
    - Python's [str] is modelled by [string], one character per code point.
    - A Python call either returns a value or raises: [Result].
    - [requests.post] is the only effect.  The remote side is a function
      [Transport] from the exchanges made so far and the outgoing request
      to what [requests.post] does (raise, or return a response); every
      call is appended to the log of exchanges. *)

From Stdlib Require Import ZArith Ascii String SpecFloat.
From stdpp Require Import base strings gmap list pretty.

Set Default Proof Using "Type".

(** ** Python values and exceptions *)

#[warnings="-register-all"]
Inductive JSON : Type :=
| JNull
| JBool (b : bool)
| JInt (z : Z)
| JFloat (f : spec_float)
| JStr (s : string)
| JArr (l : list JSON)
| JObj (m : gmap string JSON).

Inductive Exception : Type :=
| ValueError (msg : string)
| AttributeError (msg : string)
| TypeError (msg : string)
| KeyError (key : Z)
| IndexError (msg : string)
| HTTPError (status : Z)
| JSONDecodeError
| ConnectionError
| ReadTimeout.

Inductive Result (A : Type) : Type :=
| Ok (a : A)
| Raised (e : Exception).
Arguments Ok {A} a.
Arguments Raised {A} e.

#[global] Instance Result_ret : MRet Result := λ A a, Ok a.
#[global] Instance Result_bind : MBind Result := λ A B f r,
  match r with
  | Ok a => f a
  | Raised e => Raised e
  end.

Module Py.

(** [type(v).__name__], as it appears in the interpreter's messages. *)
Definition type_name (v : JSON) : string :=
  match v with
  | JNull => "NoneType"
  | JBool _ => "bool"
  | JInt _ => "int"
  | JFloat _ => "float"
  | JStr _ => "str"
  | JArr _ => "list"
  | JObj _ => "dict"
  end.

(** [bool(v)]: what [if not v] tests. *)
Definition truthy (v : JSON) : bool :=
  match v with
  | JNull => false
  | JBool b => b
  | JInt z => negb (z =? 0)%Z
  | JFloat (S754_zero _) => false
  | JFloat _ => true
  | JStr s => negb (String.length s =? 0)%nat
  | JArr l => negb (length l =? 0)%nat
  | JObj m => negb (size m =? 0)%nat
  end.

(** [v is None]. *)
Definition is_None (v : JSON) : bool :=
  match v with
  | JNull => true
  | _ => false
  end.

(** [v.get(key)]: only a [dict] has the method; a missing key yields
    [None]. *)
Definition get (v : JSON) (key : string) : Result JSON :=
  match v with
  | JObj m => Ok (default JNull (m !! key))
  | _ => Raised (AttributeError
                   ("'" +:+ type_name v +:+ "' object has no attribute 'get'"))
  end.

(** [v[0]]. *)
Definition getitem0 (v : JSON) : Result JSON :=
  match v with
  | JArr (x :: _) => Ok x
  | JArr [] => Raised (IndexError "list index out of range")
  | JStr (String c _) => Ok (JStr (String c EmptyString))
  | JStr EmptyString => Raised (IndexError "string index out of range")
  | JObj _ => Raised (KeyError 0)
  | _ => Raised (TypeError
                   ("'" +:+ type_name v +:+ "' object is not subscriptable"))
  end.

(** [len(v)]. *)
Definition len (v : JSON) : Result nat :=
  match v with
  | JArr l => Ok (length l)
  | JStr s => Ok (String.length s)
  | JObj m => Ok (size m)
  | _ => Raised (TypeError
                   ("object of type '" +:+ type_name v +:+ "' has no len()"))
  end.

Fixpoint chars (s : string) : list JSON :=
  match s with
  | EmptyString => []
  | String c s' => JStr (String c EmptyString) :: chars s'
  end.

(** The elements [for ... in v] visits: the items of a [list], the
    characters of a [str], the keys of a [dict] (here in the order of the
    map, not in insertion order). *)
Definition iter (v : JSON) : Result (list JSON) :=
  match v with
  | JArr l => Ok l
  | JStr s => Ok (chars s)
  | JObj m => Ok (JStr <$> (map_to_list m).*1)
  | _ => Raised (TypeError
                   ("'" +:+ type_name v +:+ "' object is not iterable"))
  end.

Definition mem (c : ascii) (cs : string) : bool :=
  bool_decide (c ∈ list_ascii_of_string cs).

(** [s.rstrip(cs)]: drop the longest suffix made of characters of [cs]. *)
Fixpoint rstrip (s : string) (cs : string) : string :=
  match s with
  | EmptyString => EmptyString
  | String c s' =>
      match rstrip s' cs with
      | EmptyString => if mem c cs then EmptyString else String c EmptyString
      | r => String c r
      end
  end.

(** [str(n)] inside an f-string. *)
Definition str (n : nat) : string := pretty n.

End Py.

(** ** The [requests] library *)

Record Request : Type := mkRequest {
  method : string;
  url : string;
  json : JSON;
  headers : gmap string string;
  timeout : Z
}.

(** A response as the client reads it: the status code, and what
    [response.json()] does with the content: it returns the decoded
    document, or it raises (the decoder's error for content that is not
    JSON, or whatever else decoding raises, such as the [ValueError] for an
    integer literal beyond the interpreter's digit limit). *)
Record Response : Type := mkResponse {
  status_code : Z;
  body : Result JSON
}.

Definition Exchange : Type := Request * Result Response.
Definition Transport : Type := list Exchange → Request → Result Response.

(** Computations that may call the network: they read and extend the log
    of exchanges. *)
Definition Net (A : Type) : Type := list Exchange → Result A * list Exchange.

#[global] Instance Net_ret : MRet Net := λ A a log, (Ok a, log).
#[global] Instance Net_bind : MBind Net := λ A B f c log,
  match c log with
  | (Ok a, log') => f a log'
  | (Raised e, log') => (Raised e, log')
  end.

Definition lift {A : Type} (r : Result A) : Net A := λ log, (r, log).
Definition raise {A : Type} (e : Exception) : Net A := lift (Raised e).

Module requests.

(** [requests.post(url, json=..., headers=..., timeout=...)]. *)
Definition post (server : Transport) (url : string) (json : JSON)
    (headers : gmap string string) (timeout : Z) : Net Response :=
  λ log,
    let req := mkRequest "POST" url json headers timeout in
    let out := server log req in
    (out, log ++ [(req, out)]).

(** [Response.raise_for_status()], a method of the [requests] library: it
    builds a message when [400 <= status_code < 500] (client error) or
    [500 <= status_code < 600] (server error), raises [HTTPError] when
    there is one, and returns otherwise. *)
Definition raise_for_status (r : Response) : Result unit :=
  if ((400 <=? status_code r) && (status_code r <? 600))%Z
  then Raised (HTTPError (status_code r))
  else Ok tt.

(** [Response.json()]. *)
Definition json (r : Response) : Result JSON := body r.

End requests.

(** ** class Embedding *)

Record Embedding : Type := mkEmbedding {
  api_key : string;
  base_url : string;
  model : string
}.

(** [Embedding.__init__] *)
Definition __init__ (api_key base_url model : string) : Embedding :=
  {| api_key := api_key;
     base_url := Py.rstrip base_url "/";
     model := model |}.

Section Client.

Variable server : Transport.

(** [Embedding.get_embedding] *)
Definition get_embedding (self : Embedding) (text : string) : Net JSON :=
  let payload : gmap string JSON :=
    {[ "inputs" := JArr [JStr text];
       "input_type" := JStr "document";
       "embedding_model" := JStr (model self) ]} in
  let headers : gmap string string :=
    {[ "Authorization" := "Bearer " +:+ api_key self ]} in
  response ← requests.post server (base_url self +:+ "/embeddings")
               (JObj payload) headers 30;
  _ ← lift (requests.raise_for_status response);
  data ← lift (requests.json response);
  items ← lift (Py.get data "embeddings");
  if negb (Py.truthy items)
  then raise (ValueError "Invalid response payload: missing 'embeddings'")
  else
    item ← lift (Py.getitem0 items);
    embedding_vector ← lift (Py.get item "embedding");
    if Py.is_None embedding_vector
    then raise (ValueError "Invalid response payload: missing 'embedding'")
    else mret embedding_vector.

(** The loop of [get_embeddings_batch]: [items] are the elements
    [enumerate] has not visited yet, [i] the index of the next one,
    [embeddings] the list built so far by [append]. *)
Fixpoint extract (i : nat) (items : list JSON) (embeddings : list JSON)
    : Result (list JSON) :=
  match items with
  | [] => Ok embeddings
  | item :: rest =>
      embedding_vector ← Py.get item "embedding";
      if Py.is_None embedding_vector
      then Raised (ValueError
                     ("Missing 'embedding' in response item " +:+ Py.str i))
      else extract (S i) rest (embeddings ++ [embedding_vector])
  end.

(** [Embedding.get_embeddings_batch] *)
Definition get_embeddings_batch (self : Embedding) (texts : list string)
    : Net (list JSON) :=
  match texts with
  | [] => mret []
  | _ :: _ =>
      let payload : gmap string JSON :=
        {[ "inputs" := JArr (JStr <$> texts);
           "input_type" := JStr "document";
           "embedding_model" := JStr (model self) ]} in
      let headers : gmap string string :=
        {[ "Authorization" := "Bearer " +:+ api_key self ]} in
      response ← requests.post server (base_url self +:+ "/embeddings")
                   (JObj payload) headers 60;
      _ ← lift (requests.raise_for_status response);
      data ← lift (requests.json response);
      items ← lift (Py.get data "embeddings");
      if negb (Py.truthy items)
      then raise (ValueError "Invalid response payload: missing 'embeddings'")
      else
        n ← lift (Py.len items);
        if negb (n =? length texts)%nat
        then raise (ValueError
                      ("Response length mismatch: expected "
                       +:+ Py.str (length texts) +:+ ", got " +:+ Py.str n))
        else
          elements ← lift (Py.iter items);
          lift (extract 0 elements [])
  end.

End Client.

(** ** Vocabulary of the properties *)

(** The request as the specification's wire protocol words it: a POST to
    [{baseURL}/embeddings], the header [Authorization: Bearer {apiKey}], the
    body [{"inputs": inputs, "input_type": "document", "embedding_model":
    model}].  The theorems compare the requests the code builds with it. *)
Definition wire_request (self : Embedding) (inputs : list string)
    (timeout : Z) : Request :=
  {| method := "POST";
     url := base_url self +:+ "/embeddings";
     json := JObj (list_to_map
                     [("inputs", JArr (JStr <$> inputs));
                      ("input_type", JStr "document");
                      ("embedding_model", JStr (model self))]);
     headers := list_to_map [("Authorization", "Bearer " +:+ api_key self)];
     timeout := timeout |}.

(** The run of [c] from [log] made exactly one call, and [requests.post]
    returned the response [r] for it. *)
Definition received {A : Type} (c : Net A) (log : list Exchange)
    (r : Response) : Prop :=
  ∃ req, (c log).2 = log ++ [(req, Ok r)].

(** The item is an object whose key "embedding" maps to [v]. *)
Definition has_embedding (item v : JSON) : Prop :=
  ∃ o, item = JObj o ∧ o !! "embedding" = Some v.

(** The item is an object with no key "embedding". *)
Definition lacks_embedding (item : JSON) : Prop :=
  ∃ o, item = JObj o ∧ o !! "embedding" = None.

(** The field is absent, null, or an empty list, object or string. *)
Definition absent_empty_or_null (field : option JSON) : Prop :=
  field = None ∨ field = Some JNull ∨ field = Some (JArr [])
  ∨ field = Some (JObj ∅) ∨ field = Some (JStr "").

(** The field [key] of a decoded body; a body that is not an object has no
    field. *)
Definition field_of (key : string) (body : JSON) : option JSON :=
  match body with
  | JObj fields => fields !! key
  | _ => None
  end.

Definition missing_embeddings : Exception :=
  ValueError "Invalid response payload: missing 'embeddings'".

Definition missing_embedding : Exception :=
  ValueError "Invalid response payload: missing 'embedding'".

Definition missing_embedding_at (i : nat) : Exception :=
  ValueError ("Missing 'embedding' in response item " +:+ Py.str i).

Definition length_mismatch (expected got : nat) : Exception :=
  ValueError ("Response length mismatch: expected " +:+ Py.str expected
              +:+ ", got " +:+ Py.str got).

(** An item the loop accepts, with the vector it contributes. *)
Definition yields (item v : JSON) : Prop := has_embedding item v ∧ v ≠ JNull.

(** An item at which the loop raises its validation error. *)
Definition missing_or_null (item : JSON) : Prop :=
  lacks_embedding item ∨ has_embedding item JNull.

(** [n] slashes. *)
Fixpoint slashes (n : nat) : string :=
  match n with
  | 0 => ""
  | S n' => String "/" (slashes n')
  end.

(** The last character of a string, if it has one. *)
Fixpoint last_char (s : string) : option ascii :=
  match s with
  | EmptyString => None
  | String c EmptyString => Some c
  | String _ s' => last_char s'
  end.

(** A use of the client: one of its two operations with its argument. *)
Inductive Call : Type :=
| Single (text : string)
| Batch (texts : list string).

(** The log after the call, whether it returned or raised. *)
Definition perform (server : Transport) (self : Embedding) (log : list Exchange)
    (c : Call) : list Exchange :=
  match c with
  | Single text => (get_embedding server self text log).2
  | Batch texts => (get_embeddings_batch server self texts log).2
  end.

(** The log after a sequence of calls on the same client. *)
Definition session (server : Transport) (self : Embedding)
    (calls : list Call) (log : list Exchange) : list Exchange :=
  foldl (perform server self) log calls.

(** The values Python's truth test takes for false: [None], [False], the
    integer and the float zeros, the empty string, list and dict. *)
Definition falsy (v : JSON) : Prop :=
  v = JNull ∨ v = JBool false ∨ v = JInt 0
  ∨ (∃ sign, v = JFloat (S754_zero sign))
  ∨ v = JStr "" ∨ v = JArr [] ∨ v = JObj ∅.

(** The requests a call sends, in order. *)
Definition requests_of (self : Embedding) (c : Call) : list Request :=
  match c with
  | Single text => [wire_request self [text] 30]
  | Batch [] => []
  | Batch texts => [wire_request self texts 60]
  end.

(** Python's errors for a value without the method or protocol asked of
    it. *)
Definition no_get_method (v : JSON) : Exception :=
  AttributeError ("'" +:+ Py.type_name v +:+ "' object has no attribute 'get'").

Definition not_subscriptable (v : JSON) : Exception :=
  TypeError ("'" +:+ Py.type_name v +:+ "' object is not subscriptable").

Definition no_len (v : JSON) : Exception :=
  TypeError ("object of type '" +:+ Py.type_name v +:+ "' has no len()").

(** The exceptions [get_embedding] can end with once the response [r] has
    arrived: the one [response.json()] raised, whatever it is, or one of
    those the method's own lines raise. *)
Definition single_failure (r : Response) (e : Exception) : Prop :=
  requests.json r = Raised e
  ∨ match e with
    | HTTPError status => status = status_code r ∧ (400 ≤ status < 600)%Z
    | ValueError _ => e = missing_embeddings ∨ e = missing_embedding
    | AttributeError _ =>
        ∃ v, (∀ fields, v ≠ JObj fields) ∧ e = no_get_method v
    | TypeError _ => ∃ v, e = not_subscriptable v
    | KeyError key => key = 0%Z
    | IndexError _ | JSONDecodeError | ConnectionError | ReadTimeout => False
    end.

(** The exceptions [get_embeddings_batch] can end with, for [n] texts, once
    the response [r] has arrived: the one [response.json()] raised, whatever
    it is, or one of those the method's own lines raise. *)
Definition batch_failure (n : nat) (r : Response) (e : Exception) : Prop :=
  requests.json r = Raised e
  ∨ match e with
    | HTTPError status => status = status_code r ∧ (400 ≤ status < 600)%Z
    | ValueError _ =>
        e = missing_embeddings
        ∨ (∃ got, got ≠ n ∧ e = length_mismatch n got)
        ∨ (∃ k, k < n ∧ e = missing_embedding_at k)
    | AttributeError _ =>
        ∃ v, (∀ fields, v ≠ JObj fields) ∧ e = no_get_method v
    | TypeError _ => ∃ v, e = no_len v
    | KeyError _ | IndexError _ | JSONDecodeError | ConnectionError
    | ReadTimeout => False
    end.

(** ** Example data *)

Module Examples.

Definition client : Embedding :=
  __init__ "secret" "https://api.example.com/v1//" "embed-small".

(** A response with the given status whose body is
    [{"embeddings": items}]. *)
Definition reply (status : Z) (items : JSON) : Response :=
  mkResponse status (Ok (JObj {[ "embeddings" := items ]})).

(** A remote side that answers every request with [r]. *)
Definition always (r : Response) : Transport := λ _ _, Ok r.

(** The item [{"embedding": v}]. *)
Definition item_of (v : JSON) : JSON := JObj {[ "embedding" := v ]}.

(** The vector [[0.5, 2.0]]. *)
Definition vec : JSON :=
  JArr [JFloat (S754_finite false 1 (-1)); JFloat (S754_finite false 1 1)].

End Examples.

(** ** Running a computation step by step *)

Lemma bind_post {B : Type} server u j h t (f : Response → Net B) log :
  (requests.post server u j h t ≫= f) log =
  let req := mkRequest "POST" u j h t in
  match server log req with
  | Ok r => f r (log ++ [(req, Ok r)])
  | Raised e => (Raised e, log ++ [(req, Raised e)])
  end.
Proof.
  unfold mbind, Net_bind, requests.post. cbv zeta.
  by destruct (server log _).
Qed.

Lemma bind_lift {A B : Type} (r : Result A) (f : A → Net B) log :
  (lift r ≫= f) log =
  match r with
  | Ok a => f a log
  | Raised e => (Raised e, log)
  end.
Proof. unfold mbind, Net_bind, lift. by destruct r. Qed.

Lemma wire_request_single self text :
  mkRequest "POST" (base_url self +:+ "/embeddings")
    (JObj {[ "inputs" := JArr [JStr text];
             "input_type" := JStr "document";
             "embedding_model" := JStr (model self) ]})
    {[ "Authorization" := "Bearer " +:+ api_key self ]} 30
  = wire_request self [text] 30.
Proof. reflexivity. Qed.

Lemma wire_request_batch self texts :
  mkRequest "POST" (base_url self +:+ "/embeddings")
    (JObj {[ "inputs" := JArr (JStr <$> texts);
             "input_type" := JStr "document";
             "embedding_model" := JStr (model self) ]})
    {[ "Authorization" := "Bearer " +:+ api_key self ]} 60
  = wire_request self texts 60.
Proof. reflexivity. Qed.

Ltac run_cases :=
  repeat first
    [ rewrite bind_lift
    | match goal with
      | |- context [match ?x with Ok _ => _ | Raised _ => _ end] => destruct x
      | |- context [if ?b then _ else _] => destruct b
      end ];
  try done.

(** ** The calls each operation makes *)

Lemma get_embedding_log server self text log :
  (get_embedding server self text log).2 =
  log ++ [(wire_request self [text] 30,
           server log (wire_request self [text] 30))].
Proof.
  unfold get_embedding. cbv zeta.
  rewrite bind_post, wire_request_single. cbv zeta.
  destruct (server log _) as [r|e]; [|done]. by run_cases.
Qed.

Lemma get_embeddings_batch_log server self text texts log :
  (get_embeddings_batch server self (text :: texts) log).2 =
  log ++ [(wire_request self (text :: texts) 60,
           server log (wire_request self (text :: texts) 60))].
Proof.
  unfold get_embeddings_batch. cbv zeta.
  rewrite bind_post, wire_request_batch. cbv zeta.
  destruct (server log _) as [r|e]; [|done]. by run_cases.
Qed.

Lemma received_single server self text log r :
  received (get_embedding server self text) log r ↔
  server log (wire_request self [text] 30) = Ok r.
Proof.
  unfold received. rewrite get_embedding_log. split.
  - intros [req Heq]. apply app_inv_head in Heq. congruence.
  - intros ->. by eexists.
Qed.

Lemma received_batch server self texts log r :
  received (get_embeddings_batch server self texts) log r ↔
  texts ≠ [] ∧ server log (wire_request self texts 60) = Ok r.
Proof.
  unfold received. destruct texts as [|text texts].
  - split; [|by intros [? _]]. intros [req Heq]. simpl in Heq.
    apply (f_equal length) in Heq. rewrite length_app in Heq.
    simpl in Heq. lia.
  - rewrite get_embeddings_batch_log. split.
    + intros [req Heq]. apply app_inv_head in Heq. split; [done|congruence].
    + intros [_ ->]. by eexists.
Qed.

(** ** The loop over the response items *)

Lemma is_None_false v : Py.is_None v = false ↔ v ≠ JNull.
Proof. by destruct v. Qed.

Lemma get_yields item v :
  yields item v → Py.get item "embedding" = Ok v ∧ Py.is_None v = false.
Proof.
  intros [(o & -> & Ho) Hv]. simpl. rewrite Ho. split; [done|].
  by apply is_None_false.
Qed.

Lemma get_missing_or_null item :
  missing_or_null item → Py.get item "embedding" = Ok JNull.
Proof. intros [(o & -> & Ho)|(o & -> & Ho)]; simpl; by rewrite Ho. Qed.

Lemma get_Ok_inv item v :
  Py.get item "embedding" = Ok v →
  if Py.is_None v then missing_or_null item else yields item v.
Proof.
  destruct item as [| | | | | |o]; try done. simpl. intros [= <-].
  destruct (o !! "embedding") as [w|] eqn:Ho; simpl.
  - destruct w; simpl;
      first [ by right; exists o | by split; [exists o|] ].
  - left. by exists o.
Qed.

Lemma extract_all i items acc vs :
  Forall2 yields items vs → extract i items acc = Ok (acc ++ vs).
Proof.
  intros Hall. revert i acc.
  induction Hall as [|item v items vs Hitem _ IH]; intros i acc; simpl.
  - by rewrite app_nil_r.
  - destruct (get_yields _ _ Hitem) as [Hget Hnone].
    rewrite Hget. simpl. rewrite Hnone, IH. by rewrite <- app_assoc.
Qed.

Lemma extract_stop i pre item post acc vs :
  Forall2 yields pre vs → missing_or_null item →
  extract i (pre ++ item :: post) acc
  = Raised (missing_embedding_at (i + length pre)).
Proof.
  intros Hpre Hitem. revert i acc.
  induction Hpre as [|p v pre vs Hp _ IH]; intros i acc; simpl.
  - rewrite (get_missing_or_null _ Hitem). simpl.
    by rewrite Nat.add_0_r.
  - destruct (get_yields _ _ Hp) as [Hget Hnone].
    rewrite Hget. simpl. rewrite Hnone, IH. by rewrite Nat.add_succ_r.
Qed.

Lemma extract_Ok_inv i items acc res :
  extract i items acc = Ok res →
  ∃ vs, res = acc ++ vs ∧ Forall2 yields items vs.
Proof.
  revert i acc. induction items as [|item items IH]; intros i acc; simpl.
  - intros [= <-]. exists []. by rewrite app_nil_r.
  - destruct (Py.get item "embedding") as [v|e] eqn:Hget; [|done]. simpl.
    apply get_Ok_inv in Hget.
    destruct (Py.is_None v); [done|].
    intros (vs & -> & Hvs)%IH. exists (v :: vs).
    rewrite <- app_assoc. split; [done|]. by constructor.
Qed.

Lemma extract_ValueError_inv i items acc msg :
  extract i items acc = Raised (ValueError msg) →
  ∃ k item, items !! k = Some item ∧ missing_or_null item
            ∧ ValueError msg = missing_embedding_at (i + k).
Proof.
  revert i acc. induction items as [|item items IH]; intros i acc; simpl.
  - done.
  - destruct (Py.get item "embedding") as [v|e] eqn:Hget; simpl.
    + apply get_Ok_inv in Hget. destruct (Py.is_None v).
      * intros [= <-]. exists 0, item. by rewrite Nat.add_0_r.
      * intros (k & it & Hk & Hit & ->)%IH. exists (S k), it.
        by rewrite Nat.add_succ_r.
    + destruct item; simpl in Hget; try done; by injection Hget as <-.
Qed.

(** ** What each operation does with the response it received *)

Lemma get_embedding_validate server self text log r data :
  received (get_embedding server self text) log r →
  requests.raise_for_status r = Ok tt →
  requests.json r = Ok (JObj data) →
  (get_embedding server self text log).1 =
    let items := default JNull (data !! "embeddings") in
    if negb (Py.truthy items) then Raised missing_embeddings
    else
      item ← Py.getitem0 items;
      embedding_vector ← Py.get item "embedding";
      if Py.is_None embedding_vector then Raised missing_embedding
      else Ok embedding_vector.
Proof.
  intros Hr%received_single Hstatus Hjson.
  unfold get_embedding. cbv zeta.
  rewrite bind_post, wire_request_single. cbv zeta. rewrite Hr.
  rewrite bind_lift, Hstatus, bind_lift, Hjson, bind_lift. simpl Py.get at 1.
  cbv beta iota.
  destruct (negb _); [done|].
  rewrite bind_lift. destruct (Py.getitem0 _) as [item|]; [|done].
  rewrite bind_lift. simpl. destruct (Py.get item _) as [v|]; [|done].
  simpl. by destruct (Py.is_None v).
Qed.

Lemma get_embeddings_batch_validate server self texts log r data :
  received (get_embeddings_batch server self texts) log r →
  requests.raise_for_status r = Ok tt →
  requests.json r = Ok (JObj data) →
  (get_embeddings_batch server self texts log).1 =
    let items := default JNull (data !! "embeddings") in
    if negb (Py.truthy items) then Raised missing_embeddings
    else
      n ← Py.len items;
      if negb (n =? length texts)%nat
      then Raised (length_mismatch (length texts) n)
      else elements ← Py.iter items; extract 0 elements [].
Proof.
  intros [Hne Hr]%received_batch Hstatus Hjson.
  destruct texts as [|text texts]; [done|].
  unfold get_embeddings_batch. cbv zeta.
  rewrite bind_post, wire_request_batch. cbv zeta. rewrite Hr.
  rewrite bind_lift, Hstatus, bind_lift, Hjson, bind_lift. simpl Py.get at 1.
  cbv beta iota.
  destruct (negb _); [done|].
  rewrite bind_lift. destruct (Py.len _) as [n|]; [|done].
  simpl mbind. destruct (negb _); [done|].
  rewrite bind_lift. by destruct (Py.iter _).
Qed.

Lemma get_embedding_status server self text log r e :
  received (get_embedding server self text) log r →
  requests.raise_for_status r = Raised e →
  (get_embedding server self text log).1 = Raised e.
Proof.
  intros Hr%received_single Hstatus.
  unfold get_embedding. cbv zeta.
  rewrite bind_post, wire_request_single. cbv zeta. rewrite Hr.
  by rewrite bind_lift, Hstatus.
Qed.

Lemma get_embeddings_batch_status server self texts log r e :
  received (get_embeddings_batch server self texts) log r →
  requests.raise_for_status r = Raised e →
  (get_embeddings_batch server self texts log).1 = Raised e.
Proof.
  intros [Hne Hr]%received_batch Hstatus.
  destruct texts as [|text texts]; [done|].
  unfold get_embeddings_batch. cbv zeta.
  rewrite bind_post, wire_request_batch. cbv zeta. rewrite Hr.
  by rewrite bind_lift, Hstatus.
Qed.

Lemma Forall_yields_Forall2 items :
  Forall (λ item, ∃ v, yields item v) items →
  ∃ vs, Forall2 yields items vs.
Proof.
  induction 1 as [|item items [v Hv] _ [vs Hvs]].
  - by exists [].
  - exists (v :: vs). by constructor.
Qed.

Lemma truthy_absent_empty_or_null (data : gmap string JSON) :
  absent_empty_or_null (data !! "embeddings") →
  Py.truthy (default JNull (data !! "embeddings")) = false.
Proof. by intros [-> | [-> | [-> | [-> | ->]]]]. Qed.

Lemma get_embeddings_batch_validate_list server self texts log r data items :
  received (get_embeddings_batch server self texts) log r →
  requests.raise_for_status r = Ok tt →
  requests.json r = Ok (JObj data) →
  data !! "embeddings" = Some (JArr items) →
  items ≠ [] →
  (get_embeddings_batch server self texts log).1 =
    if (length items =? length texts)%nat then extract 0 items []
    else Raised (length_mismatch (length texts) (length items)).
Proof.
  intros Hr Hstatus Hjson Hitems Hne.
  rewrite (get_embeddings_batch_validate _ _ _ _ _ _ Hr Hstatus Hjson), Hitems.
  destruct items as [|item items]; [done|].
  simpl. destruct (length texts) as [|m]; [done|].
  by destruct (length items =? m)%nat.
Qed.

Lemma is_None_true v : Py.is_None v = true ↔ v = JNull.
Proof. by destruct v. Qed.

Lemma yields_get item v :
  yields item v ↔ Py.get item "embedding" = Ok v ∧ v ≠ JNull.
Proof.
  split.
  - intros Hv. destruct (get_yields _ _ Hv) as [Hget Hn].
    by apply is_None_false in Hn.
  - intros [Hget%get_Ok_inv Hn]. apply is_None_false in Hn.
    by rewrite Hn in Hget.
Qed.

Lemma missing_or_null_get item :
  missing_or_null item ↔ Py.get item "embedding" = Ok JNull.
Proof.
  split; [apply get_missing_or_null|]. by intros Hget%get_Ok_inv.
Qed.

(** ** The request on the wire *)

(** C3. Called with an empty list, [get_embeddings_batch] returns the empty
    list at once: the log of exchanges is unchanged, whatever the remote
    side would have answered, so no network call is made and nothing is
    raised. *)
Theorem batch_empty_short_circuit server self log :
  get_embeddings_batch server self [] log = (Ok [], log).
Proof. reflexivity. Qed.

(** C8. Each operation appends to the log exactly the request of the wire
    protocol: [get_embedding] one POST to [{base_url}/embeddings] with the
    bearer header, the one-element "inputs" list, "input_type" "document",
    the configured model and timeout 30; [get_embeddings_batch], for a
    non-empty list, one POST carrying all the texts with timeout 60 (and, as
    C3 says, none for the empty list). *)
Theorem request_shape server self text texts log :
  (get_embedding server self text log).2 =
    log ++ [(wire_request self [text] 30,
             server log (wire_request self [text] 30))]
  ∧ (get_embeddings_batch server self texts log).2 =
    match texts with
    | [] => log
    | _ :: _ => log ++ [(wire_request self texts 60,
                         server log (wire_request self texts 60))]
    end.
Proof.
  split; [apply get_embedding_log|].
  destruct texts; [done|apply get_embeddings_batch_log].
Qed.

(** ** The single-text operation *)

(** C2, as amended. When the response succeeds, its body is an object whose
    "embeddings" field is a non-empty list, and the first item is an object
    whose "embedding" field holds a value other than null, [get_embedding]
    returns exactly that value. *)
Theorem get_embedding_returns_first server self text log r data item rest v :
  received (get_embedding server self text) log r →
  requests.raise_for_status r = Ok tt →
  requests.json r = Ok (JObj data) →
  data !! "embeddings" = Some (JArr (item :: rest)) →
  has_embedding item v →
  v ≠ JNull →
  (get_embedding server self text log).1 = Ok v.
Proof.
  intros Hr Hstatus Hjson Hitems Hitem Hv.
  rewrite (get_embedding_validate _ _ _ _ _ _ Hr Hstatus Hjson), Hitems.
  simpl. destruct (get_yields item v) as [Hget Hnone]; [done|].
  rewrite Hget. simpl. by rewrite Hnone.
Qed.

Lemma get_embedding_returns_first_witness :
  (get_embedding (Examples.always (Examples.reply 200
       (JArr [Examples.item_of Examples.vec])))
     Examples.client "hello" []).1 = Ok Examples.vec.
Proof.
  eapply (get_embedding_returns_first _ _ _ _
            (Examples.reply 200 (JArr [Examples.item_of Examples.vec]))).
  - by eexists.
  - reflexivity.
  - reflexivity.
  - reflexivity.
  - eexists. split; reflexivity.
  - discriminate.
Defined.

(** The claim C2 as written fails when the first item has an "embedding"
    field whose value is null: on the body
    [{"embeddings": [{"embedding": null}]}] the field is present, yet
    [get_embedding] raises the "missing 'embedding'" error instead of
    returning the field's value. *)
Lemma get_embedding_null_field :
  let r := Examples.reply 200 (JArr [Examples.item_of JNull]) in
  let run := get_embedding (Examples.always r) Examples.client "hello" [] in
  received (get_embedding (Examples.always r) Examples.client "hello") [] r
  ∧ requests.raise_for_status r = Ok tt
  ∧ requests.json r
    = Ok (JObj {[ "embeddings" := JArr [Examples.item_of JNull] ]})
  ∧ has_embedding (Examples.item_of JNull) JNull
  ∧ run.1 = Raised missing_embedding
  ∧ run.1 ≠ Ok JNull.
Proof.
  cbv zeta. split_and!; try reflexivity.
  - by eexists.
  - eexists. split; reflexivity.
  - discriminate.
Qed.

(** ** The batch operation *)

(** C1, as amended. For a non-empty list of N texts, when the response
    succeeds and its "embeddings" field is a list of exactly N items, each an
    object whose "embedding" field holds a value other than null,
    [get_embeddings_batch] returns the list of these N values, the i-th
    being the value of the i-th item. *)
Theorem batch_returns_in_order server self texts log r data items vs :
  texts ≠ [] →
  received (get_embeddings_batch server self texts) log r →
  requests.raise_for_status r = Ok tt →
  requests.json r = Ok (JObj data) →
  data !! "embeddings" = Some (JArr items) →
  length items = length texts →
  Forall2 (λ item v, has_embedding item v ∧ v ≠ JNull) items vs →
  (get_embeddings_batch server self texts log).1 = Ok vs
  ∧ length vs = length texts.
Proof.
  intros Hne Hr Hstatus Hjson Hitems Hlen Hall.
  split; [|by rewrite <- (Forall2_length _ _ _ Hall)].
  rewrite (get_embeddings_batch_validate_list _ _ _ _ _ _ _
             Hr Hstatus Hjson Hitems).
  - rewrite Hlen, Nat.eqb_refl. by apply (extract_all 0 _ []).
  - intros ->. by destruct texts.
Qed.

Lemma batch_returns_in_order_witness :
  (get_embeddings_batch
     (Examples.always (Examples.reply 200
        (JArr [Examples.item_of Examples.vec; Examples.item_of (JArr [])])))
     Examples.client ["first"; "second"] []).1
  = Ok [Examples.vec; JArr []]
  ∧ length [Examples.vec; JArr []] = length ["first"; "second"].
Proof.
  eapply (batch_returns_in_order _ _ _ _
            (Examples.reply 200
               (JArr [Examples.item_of Examples.vec;
                      Examples.item_of (JArr [])]))).
  - discriminate.
  - by eexists.
  - reflexivity.
  - reflexivity.
  - reflexivity.
  - reflexivity.
  - repeat constructor; try discriminate; by eexists.
Defined.

(** The claim C1 as written fails when an item carries an "embedding" field
    whose value is null: for one text and the body
    [{"embeddings": [{"embedding": null}]}], one item, carrying the field,
    the call raises instead of returning one vector. *)
Lemma batch_null_field :
  let items := [Examples.item_of JNull] in
  let r := Examples.reply 200 (JArr items) in
  let run := get_embeddings_batch (Examples.always r) Examples.client
               ["only"] [] in
  received (get_embeddings_batch (Examples.always r) Examples.client ["only"])
    [] r
  ∧ requests.raise_for_status r = Ok tt
  ∧ requests.json r = Ok (JObj {[ "embeddings" := JArr items ]})
  ∧ length items = length ["only"]
  ∧ Forall2 has_embedding items [JNull]
  ∧ run.1 = Raised (missing_embedding_at 0)
  ∧ run.1 ≠ Ok [JNull].
Proof.
  cbv zeta. split_and!; try reflexivity.
  - by eexists.
  - repeat constructor. by eexists.
  - discriminate.
Qed.

(** C4, as amended. When the response succeeds, its body is a JSON object,
    and the "embeddings" field of the body is absent, null or empty, both
    operations raise the "missing 'embeddings'" validation error, whatever
    the input: [get_embedding] for every text, and [get_embeddings_batch]
    for every list of texts it sends a request for (for the empty list it
    returns at once, C3, whatever the remote side would answer). *)
Theorem missing_embeddings_rejected server self text texts log r data :
  requests.raise_for_status r = Ok tt →
  requests.json r = Ok (JObj data) →
  absent_empty_or_null (data !! "embeddings") →
  (server log (wire_request self [text] 30) = Ok r →
   (get_embedding server self text log).1
   = Raised (ValueError "Invalid response payload: missing 'embeddings'"))
  ∧ (server log (wire_request self texts 60) = Ok r →
     (get_embeddings_batch server self texts log).1
     = match texts with
       | [] => Ok []
       | _ :: _ =>
           Raised (ValueError "Invalid response payload: missing 'embeddings'")
       end).
Proof.
  intros Hstatus Hjson Hfield%truthy_absent_empty_or_null. split; intros Hr.
  - apply received_single in Hr.
    rewrite (get_embedding_validate _ _ _ _ _ _ Hr Hstatus Hjson).
    cbv zeta. by rewrite Hfield.
  - destruct texts as [|t texts]; [done|].
    assert (received (get_embeddings_batch server self (t :: texts)) log r)
      as Hreceived by by apply received_batch.
    rewrite (get_embeddings_batch_validate _ _ _ _ _ _
               Hreceived Hstatus Hjson).
    cbv zeta. by rewrite Hfield.
Qed.

Lemma missing_embeddings_rejected_witness :
  let server := Examples.always (mkResponse 200 (Ok (JObj ∅))) in
  (get_embedding server Examples.client "hello" []).1
  = Raised (ValueError "Invalid response payload: missing 'embeddings'")
  ∧ (get_embeddings_batch server Examples.client ["a"; "b"] []).1
    = Raised (ValueError "Invalid response payload: missing 'embeddings'").
Proof.
  cbv zeta.
  destruct (missing_embeddings_rejected
              (Examples.always (mkResponse 200 (Ok (JObj ∅))))
              Examples.client "hello" ["a"; "b"] []
              (mkResponse 200 (Ok (JObj ∅))) ∅
              eq_refl eq_refl
              (or_introl eq_refl
                 : absent_empty_or_null ((∅ : gmap string JSON) !! "embeddings")))
    as [Hsingle Hbatch].
  split.
  - apply Hsingle. reflexivity.
  - apply Hbatch. reflexivity.
Defined.

(** The claim C4 as written fails when the body of the successful response
    is not an object: the body [[{"embedding": [0.5, 2.0]}]], a bare list,
    has no "embeddings" field, and both operations end with Python's
    [AttributeError] for the list's missing [get] method, not with the
    validation error. *)
Lemma missing_embeddings_non_object_body :
  let body := JArr [Examples.item_of Examples.vec] in
  let r := mkResponse 200 (Ok body) in
  let server := Examples.always r in
  let attribute_error :=
    AttributeError "'list' object has no attribute 'get'" in
  requests.raise_for_status r = Ok tt
  ∧ requests.json r = Ok body
  ∧ absent_empty_or_null (field_of "embeddings" body)
  ∧ received (get_embedding server Examples.client "hello") [] r
  ∧ (get_embedding server Examples.client "hello" []).1
    = Raised attribute_error
  ∧ (get_embedding server Examples.client "hello" []).1
    ≠ Raised (ValueError "Invalid response payload: missing 'embeddings'")
  ∧ received (get_embeddings_batch server Examples.client ["a"]) [] r
  ∧ (get_embeddings_batch server Examples.client ["a"] []).1
    = Raised attribute_error
  ∧ (get_embeddings_batch server Examples.client ["a"] []).1
    ≠ Raised (ValueError "Invalid response payload: missing 'embeddings'").
Proof.
  cbv zeta. split_and!; try reflexivity; try discriminate.
  - by left.
  - by eexists.
  - by eexists.
Qed.

(** C5. For a non-empty list of texts, when the "embeddings" field of the
    successful response is a non-empty list whose length differs from the
    number of texts, [get_embeddings_batch] raises the validation error
    whose message gives the number of texts as expected and the number of
    items as got.  The check comes after the one on a missing or empty
    field: an empty list of items, whose length differs too, is reported as
    missing 'embeddings'. *)
Theorem batch_length_mismatch server self texts log r data items :
  texts ≠ [] →
  received (get_embeddings_batch server self texts) log r →
  requests.raise_for_status r = Ok tt →
  requests.json r = Ok (JObj data) →
  data !! "embeddings" = Some (JArr items) →
  length items ≠ length texts →
  (get_embeddings_batch server self texts log).1 =
    if bool_decide (items = [])
    then Raised (ValueError "Invalid response payload: missing 'embeddings'")
    else Raised (ValueError
                   ("Response length mismatch: expected "
                    +:+ Py.str (length texts) +:+ ", got "
                    +:+ Py.str (length items))).
Proof.
  intros Hne Hr Hstatus Hjson Hitems Hlen.
  destruct items as [|item items].
  - rewrite (get_embeddings_batch_validate _ _ _ _ _ _ Hr Hstatus Hjson).
    by rewrite Hitems.
  - rewrite (get_embeddings_batch_validate_list _ _ _ _ _ _ _
               Hr Hstatus Hjson Hitems); [|done].
    by apply Nat.eqb_neq in Hlen as ->.
Qed.

Lemma batch_length_mismatch_witness :
  (get_embeddings_batch
     (Examples.always (Examples.reply 200 (JArr [Examples.item_of Examples.vec])))
     Examples.client ["a"; "b"; "c"] []).1
  = Raised (ValueError "Response length mismatch: expected 3, got 1").
Proof.
  apply (batch_length_mismatch
           (Examples.always
              (Examples.reply 200 (JArr [Examples.item_of Examples.vec])))
           Examples.client ["a"; "b"; "c"] []
           (Examples.reply 200 (JArr [Examples.item_of Examples.vec]))
           {[ "embeddings" := JArr [Examples.item_of Examples.vec] ]}
           [Examples.item_of Examples.vec]).
  - discriminate.
  - by eexists.
  - reflexivity.
  - reflexivity.
  - reflexivity.
  - simpl. lia.
Defined.

(** C6, as amended. For a non-empty list of texts and a successful response
    with as many items as texts, if the item at index k is an object whose
    "embedding" field is absent or null, and every item before it is an
    object whose "embedding" field holds a value other than null, then
    [get_embeddings_batch] raises the validation error naming k; the call
    raises, so no part of the vectors is returned. *)
Theorem batch_names_first_missing server self texts log r data items k item :
  texts ≠ [] →
  received (get_embeddings_batch server self texts) log r →
  requests.raise_for_status r = Ok tt →
  requests.json r = Ok (JObj data) →
  data !! "embeddings" = Some (JArr items) →
  length items = length texts →
  items !! k = Some item →
  lacks_embedding item ∨ has_embedding item JNull →
  (∀ j it, j < k → items !! j = Some it →
           ∃ v, has_embedding it v ∧ v ≠ JNull) →
  (get_embeddings_batch server self texts log).1
  = Raised (ValueError
              ("Missing 'embedding' in response item " +:+ Py.str k)).
Proof.
  intros Hne Hr Hstatus Hjson Hitems Hlen Hk Hitem Hbefore.
  rewrite (get_embeddings_batch_validate_list _ _ _ _ _ _ _
             Hr Hstatus Hjson Hitems); [|by intros ->].
  rewrite Hlen, Nat.eqb_refl.
  destruct (Forall_yields_Forall2 (take k items)) as [vs Hvs].
  { apply Forall_forall. intros it [j Hj]%list_elem_of_lookup_1.
    apply lookup_take_Some in Hj as [Hj Hlt]. by apply (Hbefore j). }
  rewrite <- (take_drop_middle items k item Hk).
  rewrite (extract_stop 0 _ _ _ _ vs Hvs Hitem).
  apply lookup_lt_Some in Hk. rewrite length_take_le by lia. done.
Qed.

Lemma batch_names_first_missing_witness :
  (get_embeddings_batch
     (Examples.always (Examples.reply 200
        (JArr [Examples.item_of Examples.vec; JObj ∅; JObj ∅])))
     Examples.client ["a"; "b"; "c"] []).1
  = Raised (ValueError "Missing 'embedding' in response item 1").
Proof.
  apply (batch_names_first_missing
           (Examples.always (Examples.reply 200
              (JArr [Examples.item_of Examples.vec; JObj ∅; JObj ∅])))
           Examples.client ["a"; "b"; "c"] []
           (Examples.reply 200
              (JArr [Examples.item_of Examples.vec; JObj ∅; JObj ∅]))
           {[ "embeddings" :=
                JArr [Examples.item_of Examples.vec; JObj ∅; JObj ∅] ]}
           [Examples.item_of Examples.vec; JObj ∅; JObj ∅] 1 (JObj ∅)).
  - discriminate.
  - by eexists.
  - reflexivity.
  - reflexivity.
  - reflexivity.
  - reflexivity.
  - reflexivity.
  - left. by eexists.
  - intros [|j] it Hj Hit; [|lia]. simpl in Hit. injection Hit as <-.
    exists Examples.vec. split; [by eexists|discriminate].
Defined.

(** The claim C6 as written fails when an earlier item has the field with
    the value null: in [[{"embedding": null}, {}]] the smallest index whose
    item lacks an "embedding" field is 1, and the error names 0. *)
Lemma batch_null_before_missing :
  let items := [Examples.item_of JNull; JObj ∅] in
  let r := Examples.reply 200 (JArr items) in
  let run := get_embeddings_batch (Examples.always r) Examples.client
               ["a"; "b"] [] in
  received (get_embeddings_batch (Examples.always r) Examples.client
              ["a"; "b"]) [] r
  ∧ requests.raise_for_status r = Ok tt
  ∧ requests.json r = Ok (JObj {[ "embeddings" := JArr items ]})
  ∧ length items = length ["a"; "b"]
  ∧ has_embedding (Examples.item_of JNull) JNull
  ∧ items !! 1 = Some (JObj ∅)
  ∧ lacks_embedding (JObj ∅)
  ∧ run.1 = Raised (ValueError "Missing 'embedding' in response item 0")
  ∧ run.1 ≠ Raised (ValueError "Missing 'embedding' in response item 1").
Proof.
  cbv zeta. split_and!; try reflexivity.
  - by eexists.
  - by eexists.
  - by eexists.
  - discriminate.
Qed.

(** ** Transport errors *)

(** C7, as amended. When the response has a status from 400 to 599, the
    statuses for which [raise_for_status] raises, both operations fail with
    the [HTTPError] it raised, unchanged (no validation error takes its
    place), and the run consists of exactly one call: the request is not
    sent again. *)
Theorem http_error_propagates server self text texts log r :
  (400 ≤ status_code r < 600)%Z →
  requests.raise_for_status r = Raised (HTTPError (status_code r))
  ∧ (received (get_embedding server self text) log r →
     get_embedding server self text log
     = (Raised (HTTPError (status_code r)),
        log ++ [(wire_request self [text] 30, Ok r)]))
  ∧ (received (get_embeddings_batch server self texts) log r →
     get_embeddings_batch server self texts log
     = (Raised (HTTPError (status_code r)),
        log ++ [(wire_request self texts 60, Ok r)])).
Proof.
  intros [Hlo Hhi].
  assert (requests.raise_for_status r = Raised (HTTPError (status_code r)))
    as Hstatus.
  { unfold requests.raise_for_status.
    apply Z.leb_le in Hlo as ->. by apply Z.ltb_lt in Hhi as ->. }
  split; [done|]. split; intros Hr.
  - apply injective_projections; simpl.
    + by apply (get_embedding_status _ _ _ _ r).
    + rewrite get_embedding_log. by apply received_single in Hr as ->.
  - apply injective_projections; simpl.
    + by apply (get_embeddings_batch_status _ _ _ _ r).
    + apply received_batch in Hr as [Hne Hr].
      destruct texts as [|t texts]; [done|].
      by rewrite get_embeddings_batch_log, Hr.
Qed.

Lemma http_error_propagates_witness :
  let r := Examples.reply 503 (JArr [Examples.item_of Examples.vec]) in
  requests.raise_for_status r = Raised (HTTPError (status_code r))
  ∧ (received (get_embedding (Examples.always r) Examples.client "hello")
       [] r →
     get_embedding (Examples.always r) Examples.client "hello" []
     = (Raised (HTTPError (status_code r)),
        [] ++ [(wire_request Examples.client ["hello"] 30, Ok r)]))
  ∧ (received (get_embeddings_batch (Examples.always r) Examples.client
                 ["a"; "b"]) [] r →
     get_embeddings_batch (Examples.always r) Examples.client ["a"; "b"] []
     = (Raised (HTTPError (status_code r)),
        [] ++ [(wire_request Examples.client ["a"; "b"] 60, Ok r)])).
Proof.
  apply (http_error_propagates _ _ _ _ _
           (Examples.reply 503 (JArr [Examples.item_of Examples.vec]))).
  simpl. lia.
Defined.

(** The claim C7 as written fails for a status that is neither 2xx nor an
    error status: [raise_for_status] lets a response with status 300 pass,
    and with a well-formed body both operations return its vectors. *)
Lemma redirect_status_passes :
  let r := Examples.reply 300 (JArr [Examples.item_of Examples.vec]) in
  ¬ (200 ≤ status_code r < 300)%Z
  ∧ received (get_embedding (Examples.always r) Examples.client "hello") [] r
  ∧ (get_embedding (Examples.always r) Examples.client "hello" []).1
    = Ok Examples.vec
  ∧ received (get_embeddings_batch (Examples.always r) Examples.client
                ["hello"]) [] r
  ∧ (get_embeddings_batch (Examples.always r) Examples.client
       ["hello"] []).1 = Ok [Examples.vec].
Proof.
  cbv zeta. split_and!; try reflexivity.
  - simpl. lia.
  - by eexists.
  - by eexists.
Qed.

(** ** No validation of the extracted value *)

(** C10. Neither operation inspects the value of an "embedding" field
    beyond comparing it with null.  With a successful response whose
    "embeddings" field is a non-empty list: [get_embedding] returns [v] exactly
    when the first item is an object whose field holds [v] and [v] is not
    null, whatever JSON value [v] is, and raises its "missing 'embedding'"
    error exactly when that item is an object whose field is absent or
    null; [get_embeddings_batch], given as many items as texts, returns
    [vs] exactly when the items are objects whose fields hold, item by item,
    the values [vs], none of them null, and an error naming an item is
    raised only at an item whose field is absent or null. *)
Theorem values_returned_verbatim server self text texts log r data item rest :
  requests.raise_for_status r = Ok tt →
  requests.json r = Ok (JObj data) →
  data !! "embeddings" = Some (JArr (item :: rest)) →
  (received (get_embedding server self text) log r →
   (∀ v, (get_embedding server self text log).1 = Ok v
         ↔ has_embedding item v ∧ v ≠ JNull)
   ∧ ((get_embedding server self text log).1 = Raised missing_embedding
      ↔ lacks_embedding item ∨ has_embedding item JNull))
  ∧ (received (get_embeddings_batch server self texts) log r →
     length (item :: rest) = length texts →
     (∀ vs, (get_embeddings_batch server self texts log).1 = Ok vs
            ↔ Forall2 (λ it v, has_embedding it v ∧ v ≠ JNull)
                (item :: rest) vs)
     ∧ (∀ msg, (get_embeddings_batch server self texts log).1
               = Raised (ValueError msg) →
               ∃ k it, (item :: rest) !! k = Some it
                       ∧ (lacks_embedding it ∨ has_embedding it JNull)
                       ∧ ValueError msg = missing_embedding_at k)).
Proof.
  intros Hstatus Hjson Hitems. split.
  - intros Hr.
    rewrite (get_embedding_validate _ _ _ _ _ _ Hr Hstatus Hjson), Hitems.
    simpl. fold (yields item). fold (missing_or_null item).
    setoid_rewrite yields_get. rewrite missing_or_null_get.
    destruct (Py.get item "embedding") as [w|e] eqn:Hget; simpl.
    + destruct (Py.is_None w) eqn:Hnone.
      * apply is_None_true in Hnone as ->. split; [|done].
        intros v. split; [done|]. by intros [[= <-] ?].
      * apply is_None_false in Hnone. split.
        -- intros v. split; [by intros [= <-]|]. by intros [[= <-] _].
        -- split; [done|]. by intros [= ->].
    + split; [by intros v; split; [|intros [? _]]|].
      split; [|done]. intros [= ->].
      destruct item; simpl in Hget; done.
  - intros Hr Hlen.
    rewrite (get_embeddings_batch_validate_list _ _ _ _ _ _ _
               Hr Hstatus Hjson Hitems); [|done].
    rewrite Hlen, Nat.eqb_refl. split.
    + intros vs. split.
      * by intros (ws & -> & Hws)%extract_Ok_inv.
      * intros Hvs. by apply (extract_all 0 _ []).
    + intros msg Hmsg. by apply extract_ValueError_inv in Hmsg.
Qed.

Lemma values_returned_verbatim_witness :
  let items := [Examples.item_of (JStr "not a vector");
                Examples.item_of (JInt 7)] in
  let server := Examples.always (Examples.reply 200 (JArr items)) in
  (get_embedding server Examples.client "hello" []).1
  = Ok (JStr "not a vector")
  ∧ (get_embeddings_batch server Examples.client ["a"; "b"] []).1
    = Ok [JStr "not a vector"; JInt 7].
Proof.
  cbv zeta.
  destruct (values_returned_verbatim
              (Examples.always (Examples.reply 200
                 (JArr [Examples.item_of (JStr "not a vector");
                        Examples.item_of (JInt 7)])))
              Examples.client "hello" ["a"; "b"] []
              (Examples.reply 200
                 (JArr [Examples.item_of (JStr "not a vector");
                        Examples.item_of (JInt 7)]))
              {[ "embeddings" :=
                   JArr [Examples.item_of (JStr "not a vector");
                         Examples.item_of (JInt 7)] ]}
              (Examples.item_of (JStr "not a vector"))
              [Examples.item_of (JInt 7)]
              eq_refl eq_refl eq_refl) as [Hsingle Hbatch].
  split.
  - apply Hsingle; [by eexists|]. split; [by eexists|discriminate].
  - apply Hbatch; [by eexists|reflexivity|].
    repeat constructor; try discriminate; by eexists.
Defined.

(** ** The base URL *)

Lemma mem_slash c : Py.mem c "/" = bool_decide (c = "/"%char).
Proof.
  unfold Py.mem. simpl. apply bool_decide_ext.
  rewrite list_elem_of_singleton. done.
Qed.

Lemma rstrip_slashes_only n : Py.rstrip (slashes n) "/" = "".
Proof. induction n as [|n IH]; [done|]. simpl. by rewrite IH. Qed.

Lemma rstrip_trailing_slashes u n :
  last_char u ≠ Some "/"%char → Py.rstrip (u +:+ slashes n) "/" = u.
Proof.
  induction u as [|c u IH]; [intros _; apply rstrip_slashes_only|].
  intros Hlast.
  change (String c u +:+ slashes n) with (String c (u +:+ slashes n)).
  cbn [Py.rstrip]. destruct u as [|c' u].
  - change ("" +:+ slashes n) with (slashes n).
    rewrite rstrip_slashes_only, mem_slash.
    rewrite bool_decide_eq_false_2; [done|]. simpl in Hlast. congruence.
  - rewrite IH; [done|]. done.
Qed.

Lemma rstrip_decompose s :
  last_char (Py.rstrip s "/") ≠ Some "/"%char
  ∧ ∃ n, s = Py.rstrip s "/" +:+ slashes n.
Proof.
  induction s as [|c s [IHlast [n IHn]]]; [by split; [|exists 0]|].
  cbn [Py.rstrip]. destruct (Py.rstrip s "/") as [|c' s'] eqn:Hs.
  - rewrite mem_slash. case_bool_decide as Hc.
    + split; [done|]. exists (S n). subst c. simpl. by rewrite IHn at 1.
    + split; [simpl; congruence|]. exists n. simpl. by rewrite IHn at 1.
  - split; [done|]. exists n. simpl. by rewrite IHn at 1.
Qed.

Lemma perform_urls server self log c :
  ∃ new, perform server self log c = log ++ new
         ∧ Forall (λ ex : Exchange, url ex.1 = base_url self +:+ "/embeddings")
             new.
Proof.
  destruct c as [text|[|text texts]]; unfold perform.
  - rewrite get_embedding_log. eexists. split; [done|]. by repeat constructor.
  - exists []. simpl. by rewrite app_nil_r.
  - rewrite get_embeddings_batch_log. eexists. split; [done|].
    by repeat constructor.
Qed.

Lemma session_urls server self calls log :
  ∃ new, session server self calls log = log ++ new
         ∧ Forall (λ ex : Exchange, url ex.1 = base_url self +:+ "/embeddings")
             new.
Proof.
  revert log. unfold session.
  induction calls as [|c calls IH]; intros log; simpl.
  - exists []. by rewrite app_nil_r.
  - destruct (perform_urls server self log c) as (new1 & -> & Hnew1).
    destruct (IH (log ++ new1)) as (new2 & -> & Hnew2).
    exists (new1 ++ new2). rewrite <- app_assoc.
    split; [done|]. by apply Forall_app.
Qed.

(** C9. The constructor stores the key and the model as given and the base
    URL without its trailing slashes: for a URL [u] that does not end in a
    slash followed by any number of slashes, the stored base URL is [u].
    The operations only read the client, so every request of every later
    call of either operation on it goes to [u/embeddings]. *)
Theorem base_url_normalised key u n model server calls log :
  last_char u ≠ Some "/"%char →
  let self := __init__ key (u +:+ slashes n) model in
  self = mkEmbedding key u model
  ∧ ∃ new, session server self calls log = log ++ new
           ∧ Forall (λ ex : Exchange, url ex.1 = u +:+ "/embeddings") new.
Proof.
  intros Hlast self.
  assert (self = mkEmbedding key u model) as ->.
  { unfold self, __init__. by rewrite rstrip_trailing_slashes. }
  split; [done|]. apply session_urls.
Qed.

Lemma base_url_normalised_witness :
  let self := __init__ "secret" ("https://api.example.com/v1" +:+ slashes 2)
                "embed-small" in
  self = mkEmbedding "secret" "https://api.example.com/v1" "embed-small"
  ∧ ∃ new,
      session (Examples.always (Examples.reply 200 (JArr [])))
        self [Single "hello"; Batch ["a"; "b"]] [] = [] ++ new
      ∧ Forall (λ ex : Exchange,
                  url ex.1 = "https://api.example.com/v1" +:+ "/embeddings")
          new.
Proof.
  apply (base_url_normalised "secret" "https://api.example.com/v1" 2).
  discriminate.
Defined.

(** X14. Every string given as base URL is the stored base URL followed by
    slashes only, and the stored base URL does not end in a slash: the
    constructor removes trailing slashes, all of them, and nothing else. *)
Lemma base_url_decompose key s model :
  last_char (base_url (__init__ key s model)) ≠ Some "/"%char
  ∧ ∃ n, s = base_url (__init__ key s model) +:+ slashes n.
Proof. apply rstrip_decompose. Qed.

(** ** Responses outside the expected shape *)

(** An item that is not an object has no [get] method: the loop stops with
    Python's own error, not with a validation error. *)
Example batch_item_not_an_object :
  (get_embeddings_batch
     (Examples.always (Examples.reply 200 (JArr [JInt 5])))
     Examples.client ["a"] []).1
  = Raised (AttributeError "'int' object has no attribute 'get'").
Proof. reflexivity. Qed.

(** So has a body that is not an object. *)
Example body_not_an_object :
  (get_embedding (Examples.always (mkResponse 200 (Ok (JArr []))))
     Examples.client "hello" []).1
  = Raised (AttributeError "'list' object has no attribute 'get'").
Proof. reflexivity. Qed.

(** A failure of [requests.post] itself reaches the caller as it is, after
    the one call. *)
Example connection_error_propagates :
  get_embedding (λ _ _, Raised ConnectionError) Examples.client "hello" []
  = (Raised ConnectionError,
     [(wire_request Examples.client ["hello"] 30, Raised ConnectionError)]).
Proof. reflexivity. Qed.

(** ** The whole run of each operation *)

Lemma result_bind_Ok {A B : Type} (a : A) (f : A → Result B) :
  (Ok a ≫= f) = f a.
Proof. reflexivity. Qed.

Lemma get_embedding_result server self text log :
  (get_embedding server self text log).1 =
    (response ← server log (wire_request self [text] 30);
     _ ← requests.raise_for_status response;
     data ← requests.json response;
     items ← Py.get data "embeddings";
     if negb (Py.truthy items) then Raised missing_embeddings
     else
       item ← Py.getitem0 items;
       embedding_vector ← Py.get item "embedding";
       if Py.is_None embedding_vector then Raised missing_embedding
       else Ok embedding_vector).
Proof.
  unfold get_embedding. cbv zeta.
  rewrite bind_post, wire_request_single. cbv zeta.
  destruct (server log _) as [r|e]; [|reflexivity]. rewrite result_bind_Ok.
  rewrite bind_lift. destruct (requests.raise_for_status r); [|reflexivity].
  rewrite result_bind_Ok.
  rewrite bind_lift. destruct (requests.json r) as [data|]; [|reflexivity].
  rewrite result_bind_Ok.
  rewrite bind_lift. destruct (Py.get data _) as [items|]; [|reflexivity].
  rewrite result_bind_Ok. destruct (negb _); [reflexivity|].
  rewrite bind_lift. destruct (Py.getitem0 _) as [item|]; [|reflexivity].
  rewrite result_bind_Ok.
  rewrite bind_lift. destruct (Py.get item _) as [v|]; [|reflexivity].
  rewrite result_bind_Ok. by destruct (Py.is_None v).
Qed.

Lemma get_embeddings_batch_result server self text texts log :
  (get_embeddings_batch server self (text :: texts) log).1 =
    (response ← server log (wire_request self (text :: texts) 60);
     _ ← requests.raise_for_status response;
     data ← requests.json response;
     items ← Py.get data "embeddings";
     if negb (Py.truthy items) then Raised missing_embeddings
     else
       n ← Py.len items;
       if negb (n =? length (text :: texts))%nat
       then Raised (length_mismatch (length (text :: texts)) n)
       else elements ← Py.iter items; extract 0 elements []).
Proof.
  unfold get_embeddings_batch. cbv zeta.
  rewrite bind_post, wire_request_batch. cbv zeta.
  destruct (server log _) as [r|e]; [|reflexivity]. rewrite result_bind_Ok.
  rewrite bind_lift. destruct (requests.raise_for_status r); [|reflexivity].
  rewrite result_bind_Ok.
  rewrite bind_lift. destruct (requests.json r) as [data|]; [|reflexivity].
  rewrite result_bind_Ok.
  rewrite bind_lift. destruct (Py.get data _) as [items|]; [|reflexivity].
  rewrite result_bind_Ok. destruct (negb _); [reflexivity|].
  rewrite bind_lift. destruct (Py.len _) as [n|]; [|reflexivity].
  rewrite result_bind_Ok. destruct (negb _); [reflexivity|].
  rewrite bind_lift. by destruct (Py.iter _).
Qed.

(** ** Failures before validation *)

(** X1. When [requests.post] itself raises (no connection, a timeout), the
    operation that made the call ends with that very exception after the
    one call: nothing is caught, retried or replaced by a validation error.
    This holds of [get_embedding] for every text and of
    [get_embeddings_batch] for every non-empty list, each on its own. *)
Theorem transport_failure_propagates server self text texts log e :
  (server log (wire_request self [text] 30) = Raised e →
   get_embedding server self text log
   = (Raised e, log ++ [(wire_request self [text] 30, Raised e)]))
  ∧ (texts ≠ [] →
     server log (wire_request self texts 60) = Raised e →
     get_embeddings_batch server self texts log
     = (Raised e, log ++ [(wire_request self texts 60, Raised e)])).
Proof.
  split.
  - intros Hsingle. apply injective_projections; simpl.
    + by rewrite get_embedding_result, Hsingle.
    + by rewrite get_embedding_log, Hsingle.
  - intros Hne Hbatch. destruct texts as [|t texts]; [done|].
    apply injective_projections; cbn [fst snd].
    + by rewrite get_embeddings_batch_result, Hbatch.
    + by rewrite get_embeddings_batch_log, Hbatch.
Qed.

Lemma transport_failure_propagates_witness :
  let down : Transport := λ _ _, Raised ConnectionError in
  let slow_batch : Transport := λ _ req,
    if (timeout req =? 60)%Z then Raised ReadTimeout
    else Ok (Examples.reply 200 (JArr [Examples.item_of Examples.vec])) in
  get_embedding down Examples.client "hello" []
  = (Raised ConnectionError,
     [] ++ [(wire_request Examples.client ["hello"] 30,
             Raised ConnectionError)])
  ∧ get_embeddings_batch slow_batch Examples.client ["a"; "b"] []
    = (Raised ReadTimeout,
       [] ++ [(wire_request Examples.client ["a"; "b"] 60,
               Raised ReadTimeout)])
  ∧ (get_embedding slow_batch Examples.client "hello" []).1
    = Ok Examples.vec.
Proof.
  cbv zeta. split_and!.
  - apply (proj1 (transport_failure_propagates
                    (λ _ _, Raised ConnectionError) Examples.client
                    "hello" [] [] ConnectionError)).
    reflexivity.
  - apply (proj2 (transport_failure_propagates
                    (λ _ req,
                       if (timeout req =? 60)%Z then Raised ReadTimeout
                       else Ok (Examples.reply 200
                                  (JArr [Examples.item_of Examples.vec])))
                    Examples.client "hello" ["a"; "b"] [] ReadTimeout)).
    + discriminate.
    + reflexivity.
  - reflexivity.
Defined.

(** X2. When the status check passes and the body cannot be decoded, both
    operations end with the decoder's exception: no field of the body is
    looked at. *)
Theorem undecodable_body_propagates server self text texts log r e :
  requests.raise_for_status r = Ok tt →
  requests.json r = Raised e →
  (received (get_embedding server self text) log r →
   (get_embedding server self text log).1 = Raised e)
  ∧ (received (get_embeddings_batch server self texts) log r →
     (get_embeddings_batch server self texts log).1 = Raised e).
Proof.
  intros Hstatus Hjson. split.
  - intros Hr%received_single.
    by rewrite get_embedding_result, Hr, result_bind_Ok, Hstatus,
      result_bind_Ok, Hjson.
  - intros [Hne Hr]%received_batch. destruct texts as [|t texts]; [done|].
    by rewrite get_embeddings_batch_result, Hr, result_bind_Ok, Hstatus,
      result_bind_Ok, Hjson.
Qed.

Lemma undecodable_body_propagates_witness :
  let r := mkResponse 200 (Raised JSONDecodeError) in
  (received (get_embedding (Examples.always r) Examples.client "hello") [] r →
   (get_embedding (Examples.always r) Examples.client "hello" []).1
   = Raised JSONDecodeError)
  ∧ (received (get_embeddings_batch (Examples.always r) Examples.client
                 ["a"]) [] r →
     (get_embeddings_batch (Examples.always r) Examples.client ["a"] []).1
     = Raised JSONDecodeError).
Proof.
  apply (undecodable_body_propagates _ _ _ _ _
           (mkResponse 200 (Raised JSONDecodeError))).
  - reflexivity.
  - reflexivity.
Defined.

(** X3. When the body decodes to anything but an object (a list, a string,
    a number, a boolean, null), both operations end with Python's
    [AttributeError] for the missing [get] method, naming the type of the
    body; it is not one of the validation errors. *)
Theorem non_object_body_raises server self text texts log r data :
  requests.raise_for_status r = Ok tt →
  requests.json r = Ok data →
  (∀ fields, data ≠ JObj fields) →
  let e := AttributeError
             ("'" +:+ Py.type_name data +:+ "' object has no attribute 'get'") in
  (received (get_embedding server self text) log r →
   (get_embedding server self text log).1 = Raised e)
  ∧ (received (get_embeddings_batch server self texts) log r →
     (get_embeddings_batch server self texts log).1 = Raised e).
Proof.
  intros Hstatus Hjson Hdata e.
  assert (Py.get data "embeddings" = Raised e) as Hget.
  { destruct data; try done. by destruct (Hdata m). }
  split.
  - intros Hr%received_single.
    by rewrite get_embedding_result, Hr, result_bind_Ok, Hstatus,
      result_bind_Ok, Hjson, result_bind_Ok, Hget.
  - intros [Hne Hr]%received_batch. destruct texts as [|t texts]; [done|].
    by rewrite get_embeddings_batch_result, Hr, result_bind_Ok, Hstatus,
      result_bind_Ok, Hjson, result_bind_Ok, Hget.
Qed.

Lemma non_object_body_raises_witness :
  let r := mkResponse 200 (Ok (JArr [Examples.item_of Examples.vec])) in
  let e := AttributeError "'list' object has no attribute 'get'" in
  (received (get_embedding (Examples.always r) Examples.client "hello") [] r →
   (get_embedding (Examples.always r) Examples.client "hello" []).1
   = Raised e)
  ∧ (received (get_embeddings_batch (Examples.always r) Examples.client
                 ["a"]) [] r →
     (get_embeddings_batch (Examples.always r) Examples.client ["a"] []).1
     = Raised e).
Proof.
  apply (non_object_body_raises _ _ _ _ _
           (mkResponse 200 (Ok (JArr [Examples.item_of Examples.vec])))
           (JArr [Examples.item_of Examples.vec])).
  - reflexivity.
  - reflexivity.
  - discriminate.
Defined.

(** ** The truth test on "embeddings" *)

Lemma truthy_false_iff v : Py.truthy v = false ↔ falsy v.
Proof.
  unfold falsy. split.
  - destruct v as [|b|z|f|s|l|m]; simpl.
    + by left.
    + intros ->. by right; left.
    + intros ->%negb_false_iff%Z.eqb_eq. by right; right; left.
    + destruct f; try done. intros _. right; right; right; left. by eexists.
    + destruct s; [|done]. intros _. by right; right; right; right; left.
    + destruct l; [|done]. intros _. by do 5 right; left.
    + intros ->%negb_false_iff%Nat.eqb_eq%map_size_empty_iff. by do 6 right.
  - by intros [->|[->|[->|[[sign ->]|[->|[->| ->]]]]]].
Qed.

Lemma status_raises_inv r e :
  requests.raise_for_status r = Raised e →
  e = HTTPError (status_code r) ∧ (400 ≤ status_code r < 600)%Z.
Proof.
  unfold requests.raise_for_status.
  destruct (_ && _) eqn:Hrange; [|done]. intros [= <-].
  apply andb_true_iff in Hrange as [?%Z.leb_le ?%Z.ltb_lt]. done.
Qed.

Lemma get_raises_inv v key e :
  Py.get v key = Raised e → (∀ fields, v ≠ JObj fields) ∧ e = no_get_method v.
Proof. destruct v; simpl; try done; by intros [= <-]. Qed.

Lemma getitem0_raises_inv v e :
  Py.truthy v = true → Py.getitem0 v = Raised e →
  e = not_subscriptable v ∨ e = KeyError 0.
Proof.
  destruct v as [|b|z|f|[|c s]|[|x l]|m]; simpl; try done;
    intros _ [= <-]; by eauto.
Qed.

Lemma len_raises_inv v e : Py.len v = Raised e → e = no_len v.
Proof. destruct v; simpl; try done; by intros [= <-]. Qed.

Lemma chars_length s : length (Py.chars s) = String.length s.
Proof. induction s as [|c s IH]; simpl; by rewrite ?IH. Qed.

Lemma iter_after_len v n :
  Py.len v = Ok n → ∃ elements, Py.iter v = Ok elements ∧ length elements = n.
Proof.
  destruct v as [| | | |s|l|m]; simpl; try done; intros [= <-]; eexists;
    (split; [done|]).
  - apply chars_length.
  - done.
  - by rewrite !length_fmap, length_map_to_list.
Qed.

Lemma extract_raises_inv i items acc e :
  extract i items acc = Raised e →
  (∃ k, k < length items ∧ e = missing_embedding_at (i + k))
  ∨ (∃ v, (∀ fields, v ≠ JObj fields) ∧ e = no_get_method v).
Proof.
  revert i acc. induction items as [|item items IH]; intros i acc; simpl.
  - done.
  - destruct (Py.get item "embedding") as [v|e'] eqn:Hget.
    + rewrite result_bind_Ok. destruct (Py.is_None v).
      * intros [= <-]. left. exists 0. split; [lia|]. by rewrite Nat.add_0_r.
      * intros [(k & Hk & ->)|Hv]%IH; [left|by right].
        exists (S k). split; [lia|]. by rewrite Nat.add_succ_r.
    + intros [= <-]. right. exists item. by apply get_raises_inv in Hget.
Qed.

(** X4. With a successful response whose body is an object, each operation
    raises the "missing 'embeddings'" error exactly when the field is absent
    or holds a value Python takes for false: null, false, a zero, or an
    empty string, list or object. *)
Theorem missing_embeddings_iff_falsy server self text texts log r data :
  requests.raise_for_status r = Ok tt →
  requests.json r = Ok (JObj data) →
  let absent_or_falsy :=
    data !! "embeddings" = None
    ∨ ∃ v, data !! "embeddings" = Some v ∧ falsy v in
  (received (get_embedding server self text) log r →
   ((get_embedding server self text log).1 = Raised missing_embeddings
    ↔ absent_or_falsy))
  ∧ (received (get_embeddings_batch server self texts) log r →
     ((get_embeddings_batch server self texts log).1
      = Raised missing_embeddings ↔ absent_or_falsy)).
Proof.
  intros Hstatus Hjson absent_or_falsy.
  assert (absent_or_falsy
          ↔ Py.truthy (default JNull (data !! "embeddings")) = false)
    as ->.
  { unfold absent_or_falsy. rewrite truthy_false_iff.
    destruct (data !! "embeddings") as [v|]; simpl.
    - split; [by intros [?|(w & [= <-] & ?)]|]. intros Hv. right. by exists v.
    - split; [|by left]. intros _. by left. }
  split; intros Hr.
  - rewrite (get_embedding_validate _ _ _ _ _ _ Hr Hstatus Hjson). cbv zeta.
    destruct (Py.truthy _) eqn:Htruthy; simpl negb; cbv iota; [|done].
    split; [|done].
    destruct (Py.getitem0 _) as [item|e] eqn:Hitem.
    + rewrite result_bind_Ok.
      destruct (Py.get item _) as [v|e] eqn:Hget.
      * rewrite result_bind_Ok. by destruct (Py.is_None v).
      * by apply get_raises_inv in Hget as [_ ->].
    + by destruct (getitem0_raises_inv _ _ Htruthy Hitem) as [-> | ->].
  - rewrite (get_embeddings_batch_validate _ _ _ _ _ _ Hr Hstatus Hjson).
    cbv zeta.
    destruct (Py.truthy _) eqn:Htruthy; simpl negb; cbv iota; [|done].
    split; [|done].
    destruct (Py.len _) as [n|e] eqn:Hlen.
    + rewrite result_bind_Ok. destruct (negb _); [done|].
      destruct (iter_after_len _ _ Hlen) as (elements & -> & _).
      rewrite result_bind_Ok.
      destruct (extract 0 elements []) as [vs|e] eqn:Hloop; [done|].
      by apply extract_raises_inv in Hloop as [(k & _ & ->)|(v & _ & ->)].
    + by apply len_raises_inv in Hlen as ->.
Qed.

Lemma missing_embeddings_iff_falsy_witness :
  let r := Examples.reply 200 (JInt 0) in
  (received (get_embedding (Examples.always r) Examples.client "hello") [] r →
   ((get_embedding (Examples.always r) Examples.client "hello" []).1
    = Raised missing_embeddings
    ↔ ({[ "embeddings" := JInt 0 ]} : gmap string JSON) !! "embeddings" = None
      ∨ ∃ v, ({[ "embeddings" := JInt 0 ]} : gmap string JSON)
               !! "embeddings" = Some v ∧ falsy v))
  ∧ (received (get_embeddings_batch (Examples.always r) Examples.client
                 ["a"]) [] r →
     ((get_embeddings_batch (Examples.always r) Examples.client ["a"] []).1
      = Raised missing_embeddings
      ↔ ({[ "embeddings" := JInt 0 ]} : gmap string JSON)
          !! "embeddings" = None
        ∨ ∃ v, ({[ "embeddings" := JInt 0 ]} : gmap string JSON)
                 !! "embeddings" = Some v ∧ falsy v)).
Proof.
  apply (missing_embeddings_iff_falsy _ _ _ _ _ (Examples.reply 200 (JInt 0))).
  - reflexivity.
  - reflexivity.
Defined.

(** ** The exceptions each operation can end with *)

(** X5. Once a response has arrived, [get_embedding] can only end with:
    the [HTTPError] of a 400-599 status; the exception [response.json()]
    raised, whatever it is; one of its two validation errors;
    [AttributeError] for a value without [get]; [TypeError] for a value
    that cannot be indexed; or [KeyError] 0 for an object under
    "embeddings".  The method's own lines never raise [IndexError], since
    the truth test comes before [items[0]]: an [IndexError] can only be one
    that [response.json()] raised. *)
Theorem get_embedding_failures server self text log r e :
  received (get_embedding server self text) log r →
  (get_embedding server self text log).1 = Raised e →
  single_failure r e.
Proof.
  intros Hr%received_single. rewrite get_embedding_result, Hr, result_bind_Ok.
  destruct (requests.raise_for_status r) as [[]|e1] eqn:Hstatus;
    [rewrite result_bind_Ok|].
  2:{ intros [= <-]. right. by apply status_raises_inv in Hstatus as [-> ?]. }
  destruct (requests.json r) as [data|e1] eqn:Hjson; [rewrite result_bind_Ok|].
  2:{ intros [= <-]. by left. }
  intros Hrun. right. revert Hrun.
  destruct (Py.get data "embeddings") as [items|e1] eqn:Hitems;
    [rewrite result_bind_Ok|].
  2:{ intros [= <-]. apply get_raises_inv in Hitems as [? ->]. by exists data. }
  destruct (Py.truthy items) eqn:Htruthy; simpl negb; cbv iota.
  2:{ intros [= <-]. by left. }
  destruct (Py.getitem0 items) as [item|e1] eqn:Hitem; [rewrite result_bind_Ok|].
  2:{ intros [= <-].
      destruct (getitem0_raises_inv _ _ Htruthy Hitem) as [-> | ->];
        [by exists items|done]. }
  destruct (Py.get item "embedding") as [v|e1] eqn:Hget;
    [rewrite result_bind_Ok|].
  2:{ intros [= <-]. apply get_raises_inv in Hget as [? ->]. by exists item. }
  destruct (Py.is_None v); [|done]. intros [= <-]. by right.
Qed.

Lemma get_embedding_failures_witness :
  let digits := ValueError "Exceeds the limit (4300 digits)" in
  single_failure (Examples.reply 200 (JObj {[ "0" := Examples.vec ]}))
    (KeyError 0)
  ∧ single_failure (mkResponse 200 (Raised digits)) digits.
Proof.
  cbv zeta. split.
  - apply (get_embedding_failures
             (Examples.always
                (Examples.reply 200 (JObj {[ "0" := Examples.vec ]})))
             Examples.client "hello" []).
    + by eexists.
    + reflexivity.
  - apply (get_embedding_failures
             (Examples.always
                (mkResponse 200
                   (Raised (ValueError "Exceeds the limit (4300 digits)"))))
             Examples.client "hello" []).
    + by eexists.
    + reflexivity.
Defined.

(** X6. Once a response has arrived, [get_embeddings_batch] can only end
    with: the [HTTPError] of a 400-599 status; the exception
    [response.json()] raised, whatever it is; one of its three validation
    errors (missing 'embeddings'; a length mismatch whose reported count
    differs from the number of texts; a missing 'embedding' at an index
    below the number of texts); [AttributeError] for a value without [get];
    or [TypeError] for a value without a length.  The method's own lines
    never raise [KeyError] or [IndexError]: one of these can only be one
    that [response.json()] raised. *)
Theorem get_embeddings_batch_failures server self texts log r e :
  received (get_embeddings_batch server self texts) log r →
  (get_embeddings_batch server self texts log).1 = Raised e →
  batch_failure (length texts) r e.
Proof.
  intros [Hne Hr]%received_batch. destruct texts as [|t texts]; [done|].
  rewrite get_embeddings_batch_result, Hr, result_bind_Ok.
  destruct (requests.raise_for_status r) as [[]|e1] eqn:Hstatus;
    [rewrite result_bind_Ok|].
  2:{ intros [= <-]. right. by apply status_raises_inv in Hstatus as [-> ?]. }
  destruct (requests.json r) as [data|e1] eqn:Hjson; [rewrite result_bind_Ok|].
  2:{ intros [= <-]. by left. }
  intros Hrun. right. revert Hrun.
  destruct (Py.get data "embeddings") as [items|e1] eqn:Hitems;
    [rewrite result_bind_Ok|].
  2:{ intros [= <-]. apply get_raises_inv in Hitems as [? ->]. by exists data. }
  destruct (Py.truthy items) eqn:Htruthy; simpl negb; cbv iota.
  2:{ intros [= <-]. by left. }
  destruct (Py.len items) as [n|e1] eqn:Hlen; [rewrite result_bind_Ok|].
  2:{ intros [= <-]. apply len_raises_inv in Hlen as ->. by exists items. }
  match goal with
  | |- context [(n =? ?m)%nat] => destruct (Nat.eqb_spec n m) as [Hn|Hn]
  end; simpl negb; cbv iota.
  2:{ intros [= <-]. right; left. by exists n. }
  destruct (iter_after_len _ _ Hlen) as (elements & -> & Hlength).
  rewrite result_bind_Ok.
  intros [(k & Hk & ->)|(v & Hv & ->)]%extract_raises_inv.
  - right; right. exists k. split; [simpl in *; lia|done].
  - by exists v.
Qed.

Lemma get_embeddings_batch_failures_witness :
  let digits := ValueError "Exceeds the limit (4300 digits)" in
  batch_failure (length ["a"; "b"]) (Examples.reply 200 (JInt 7))
    (no_len (JInt 7))
  ∧ batch_failure (length ["a"; "b"]) (mkResponse 200 (Raised digits)) digits.
Proof.
  cbv zeta. split.
  - apply (get_embeddings_batch_failures
             (Examples.always (Examples.reply 200 (JInt 7)))
             Examples.client ["a"; "b"] []).
    + by eexists.
    + reflexivity.
  - apply (get_embeddings_batch_failures
             (Examples.always
                (mkResponse 200
                   (Raised (ValueError "Exceeds the limit (4300 digits)"))))
             Examples.client ["a"; "b"] []).
    + by eexists.
    + reflexivity.
Defined.

(** ** What a returned value tells *)

Lemma yields_not_null items vs :
  Forall2 yields items vs → Forall (λ v, v ≠ JNull) vs.
Proof. induction 1 as [|item v items vs [_ Hv] _ IH]; by constructor. Qed.

Lemma iter_yields_list v elements vs :
  Py.truthy v = true → Py.iter v = Ok elements →
  Forall2 yields elements vs → v = JArr elements.
Proof.
  destruct v as [| | | |s|l|m]; simpl; try done.
  - destruct s as [|c s]; [done|]. intros _ [= <-] Hall.
    inversion Hall as [|? ? ? ? [(o & Ho & _) _]]; simplify_eq.
  - by intros _ [= <-].
  - intros Hsize [= <-] Hall. destruct (map_to_list m) as [|[k x] kvs] eqn:Hm.
    + apply map_to_list_empty_iff in Hm as ->. by rewrite map_size_empty in Hsize.
    + inversion Hall as [|? ? ? ? [(o & Ho & _) _]]; simplify_eq.
Qed.

Lemma get_embeddings_batch_Ok_inv server self texts log r vs :
  received (get_embeddings_batch server self texts) log r →
  (get_embeddings_batch server self texts log).1 = Ok vs →
  requests.raise_for_status r = Ok tt
  ∧ ∃ data items,
      requests.json r = Ok (JObj data)
      ∧ data !! "embeddings" = Some (JArr items)
      ∧ length items = length texts
      ∧ Forall2 yields items vs.
Proof.
  intros [Hne Hr]%received_batch. destruct texts as [|t texts]; [done|].
  rewrite get_embeddings_batch_result, Hr, result_bind_Ok.
  destruct (requests.raise_for_status r) as [[]|] eqn:Hstatus; [|done].
  rewrite result_bind_Ok.
  destruct (requests.json r) as [data|] eqn:Hjson; [|done].
  rewrite result_bind_Ok.
  destruct data as [| | | | | |data]; try done. simpl Py.get.
  rewrite result_bind_Ok.
  destruct (data !! "embeddings") as [items|] eqn:Hitems; [|done].
  simpl default.
  destruct (Py.truthy items) eqn:Htruthy; [|done]. simpl negb. cbv iota.
  destruct (Py.len items) as [n|] eqn:Hlen; [|done]. rewrite result_bind_Ok.
  match goal with
  | |- context [(n =? ?m)%nat] => destruct (Nat.eqb_spec n m) as [Hn|Hn]
  end; [|done]. simpl negb. cbv iota.
  destruct (iter_after_len _ _ Hlen) as (elements & Hiter & Hlength).
  rewrite Hiter, result_bind_Ok.
  intros (ws & -> & Hall)%extract_Ok_inv.
  rewrite (iter_yields_list _ _ _ Htruthy Hiter Hall) in *.
  split; [done|]. exists data, elements. split_and!; try done.
  simpl in *. congruence.
Qed.

Lemma get_embedding_Ok_inv server self text log r v :
  received (get_embedding server self text) log r →
  (get_embedding server self text log).1 = Ok v →
  requests.raise_for_status r = Ok tt
  ∧ ∃ data item rest,
      requests.json r = Ok (JObj data)
      ∧ data !! "embeddings" = Some (JArr (item :: rest))
      ∧ yields item v.
Proof.
  intros Hr%received_single.
  rewrite get_embedding_result, Hr, result_bind_Ok.
  destruct (requests.raise_for_status r) as [[]|] eqn:Hstatus; [|done].
  rewrite result_bind_Ok.
  destruct (requests.json r) as [data|] eqn:Hjson; [|done].
  rewrite result_bind_Ok.
  destruct data as [| | | | | |data]; try done. simpl Py.get.
  rewrite result_bind_Ok.
  destruct (data !! "embeddings") as [items|] eqn:Hitems; [|done].
  simpl default.
  destruct (Py.truthy items) eqn:Htruthy; [|done]. simpl negb. cbv iota.
  destruct (Py.getitem0 items) as [item|] eqn:Hitem; [|done].
  rewrite result_bind_Ok.
  destruct (Py.get item "embedding") as [w|] eqn:Hget; [|done].
  rewrite result_bind_Ok. destruct (Py.is_None w) eqn:Hnone; [done|].
  intros [= ->]. split; [done|].
  assert (yields item v) as Hyields.
  { apply yields_get. split; [done|]. by apply is_None_false. }
  destruct items as [| | | |[|c s]|[|x l]|m]; simpl in Hitem; try done.
  - injection Hitem as <-. by destruct Hyields as [(o & ? & _) _].
  - injection Hitem as <-. by exists data, x, l.
Qed.

Lemma run_Ok_received_single server self text log v :
  (get_embedding server self text log).1 = Ok v →
  ∃ r, received (get_embedding server self text) log r.
Proof.
  rewrite get_embedding_result.
  destruct (server log _) as [r|] eqn:Hr; [|done]. intros _.
  exists r. by apply received_single.
Qed.

Lemma run_Ok_received_batch server self texts log vs :
  texts ≠ [] →
  (get_embeddings_batch server self texts log).1 = Ok vs →
  ∃ r, received (get_embeddings_batch server self texts) log r.
Proof.
  intros Hne. destruct texts as [|t texts]; [done|].
  rewrite get_embeddings_batch_result.
  destruct (server log _) as [r|] eqn:Hr; [|done]. intros _.
  exists r. by apply received_batch.
Qed.

(** X7. Whatever the transport answers, a result of [get_embeddings_batch]
    has exactly one vector per input text, and none of them is null. *)
Theorem batch_result_length server self texts log vs :
  (get_embeddings_batch server self texts log).1 = Ok vs →
  length vs = length texts ∧ Forall (λ v, v ≠ JNull) vs.
Proof.
  destruct texts as [|t texts].
  - intros [= <-]. by split.
  - intros Hrun. assert (t :: texts ≠ []) as Hne by done.
    destruct (run_Ok_received_batch _ _ _ _ _ Hne Hrun) as [r Hr].
    destruct (get_embeddings_batch_Ok_inv _ _ _ _ _ _ Hr Hrun)
      as (_ & data & items & _ & _ & Hlen & Hall).
    split; [|by eapply yields_not_null].
    by rewrite <- Hlen, (Forall2_length _ _ _ Hall).
Qed.

Lemma batch_result_length_witness :
  length [Examples.vec; JStr "x"] = length ["a"; "b"]
  ∧ Forall (λ v, v ≠ JNull) [Examples.vec; JStr "x"].
Proof.
  apply (batch_result_length
           (Examples.always (Examples.reply 200
              (JArr [Examples.item_of Examples.vec;
                     Examples.item_of (JStr "x")])))
           Examples.client ["a"; "b"] []).
  reflexivity.
Defined.

(** X8. A value returned by [get_embedding] always comes from a response
    that passed the status check, whose body is an object, whose
    "embeddings" field is a non-empty list, and whose first item is an object
    holding that value, not null, under "embedding". *)
Theorem get_embedding_success_inv server self text log v :
  (get_embedding server self text log).1 = Ok v →
  ∃ r data item rest,
    received (get_embedding server self text) log r
    ∧ requests.raise_for_status r = Ok tt
    ∧ requests.json r = Ok (JObj data)
    ∧ data !! "embeddings" = Some (JArr (item :: rest))
    ∧ has_embedding item v
    ∧ v ≠ JNull.
Proof.
  intros Hrun. destruct (run_Ok_received_single _ _ _ _ _ Hrun) as [r Hr].
  destruct (get_embedding_Ok_inv _ _ _ _ _ _ Hr Hrun)
    as (Hstatus & data & item & rest & Hjson & Hitems & Hitem & Hv).
  by exists r, data, item, rest.
Qed.

Lemma get_embedding_success_inv_witness :
  ∃ r data item rest,
    received (get_embedding
                (Examples.always (Examples.reply 200
                   (JArr [Examples.item_of Examples.vec])))
                Examples.client "hello") [] r
    ∧ requests.raise_for_status r = Ok tt
    ∧ requests.json r = Ok (JObj data)
    ∧ data !! "embeddings" = Some (JArr (item :: rest))
    ∧ has_embedding item Examples.vec
    ∧ Examples.vec ≠ JNull.
Proof.
  apply (get_embedding_success_inv
           (Examples.always (Examples.reply 200
              (JArr [Examples.item_of Examples.vec])))
           Examples.client "hello" []).
  reflexivity.
Defined.

(** X9. For a non-empty list of texts, a result of [get_embeddings_batch]
    always comes from a response that passed the status check, whose body
    is an object, and whose "embeddings" field is a list with one object
    per text, each holding under "embedding" the vector returned at its
    index, not null. *)
Theorem batch_success_inv server self texts log vs :
  texts ≠ [] →
  (get_embeddings_batch server self texts log).1 = Ok vs →
  ∃ r data items,
    received (get_embeddings_batch server self texts) log r
    ∧ requests.raise_for_status r = Ok tt
    ∧ requests.json r = Ok (JObj data)
    ∧ data !! "embeddings" = Some (JArr items)
    ∧ length items = length texts
    ∧ Forall2 (λ item v, has_embedding item v ∧ v ≠ JNull) items vs.
Proof.
  intros Hne Hrun.
  destruct (run_Ok_received_batch _ _ _ _ _ Hne Hrun) as [r Hr].
  destruct (get_embeddings_batch_Ok_inv _ _ _ _ _ _ Hr Hrun)
    as (Hstatus & data & items & Hjson & Hitems & Hlen & Hall).
  by exists r, data, items.
Qed.

Lemma batch_success_inv_witness :
  ∃ r data items,
    received (get_embeddings_batch
                (Examples.always (Examples.reply 200
                   (JArr [Examples.item_of Examples.vec])))
                Examples.client ["a"]) [] r
    ∧ requests.raise_for_status r = Ok tt
    ∧ requests.json r = Ok (JObj data)
    ∧ data !! "embeddings" = Some (JArr items)
    ∧ length items = length ["a"]
    ∧ Forall2 (λ item v, has_embedding item v ∧ v ≠ JNull)
        items [Examples.vec].
Proof.
  apply (batch_success_inv
           (Examples.always (Examples.reply 200
              (JArr [Examples.item_of Examples.vec])))
           Examples.client ["a"] []).
  - discriminate.
  - reflexivity.
Defined.

(** ** The two operations side by side *)

(** X10. A response on which [get_embeddings_batch] returns vectors is one
    on which [get_embedding] returns the first of them: the batch check is
    the stricter of the two. *)
Theorem batch_success_implies_single
    server server' self self' text texts log log' r vs :
  received (get_embeddings_batch server self texts) log r →
  (get_embeddings_batch server self texts log).1 = Ok vs →
  received (get_embedding server' self' text) log' r →
  ∃ v rest, vs = v :: rest
            ∧ (get_embedding server' self' text log').1 = Ok v.
Proof.
  intros Hbatch Hrun Hsingle.
  destruct (get_embeddings_batch_Ok_inv _ _ _ _ _ _ Hbatch Hrun)
    as (Hstatus & data & items & Hjson & Hitems & Hlen & Hall).
  apply received_batch in Hbatch as [Hne _].
  destruct Hall as [|item v items vs Hitem Hall]; [by destruct texts|].
  exists v, vs. split; [done|].
  rewrite (get_embedding_validate _ _ _ _ _ _ Hsingle Hstatus Hjson), Hitems.
  simpl. destruct (get_yields _ _ Hitem) as [Hget Hnone].
  by rewrite Hget, result_bind_Ok, Hnone.
Qed.

Lemma batch_success_implies_single_witness :
  ∃ v rest,
    [Examples.vec; JStr "x"] = v :: rest
    ∧ (get_embedding
         (Examples.always (Examples.reply 200
            (JArr [Examples.item_of Examples.vec;
                   Examples.item_of (JStr "x")])))
         Examples.client "hello" []).1 = Ok v.
Proof.
  apply (batch_success_implies_single
           (Examples.always (Examples.reply 200
              (JArr [Examples.item_of Examples.vec;
                     Examples.item_of (JStr "x")])))
           _ Examples.client _ _ ["a"; "b"] [] _
           (Examples.reply 200
              (JArr [Examples.item_of Examples.vec;
                     Examples.item_of (JStr "x")]))).
  - by eexists.
  - reflexivity.
  - by eexists.
Defined.

(** X11. The converse fails by design of the length check: on a response
    with more than one item whose first item holds a non-null vector,
    [get_embedding] returns that vector and ignores the rest, while
    [get_embeddings_batch] with one text rejects the response, reporting
    one expected and the number of items got. *)
Theorem surplus_items server self text log r data item rest v :
  requests.raise_for_status r = Ok tt →
  requests.json r = Ok (JObj data) →
  data !! "embeddings" = Some (JArr (item :: rest)) →
  rest ≠ [] →
  has_embedding item v →
  v ≠ JNull →
  (received (get_embedding server self text) log r →
   (get_embedding server self text log).1 = Ok v)
  ∧ (received (get_embeddings_batch server self [text]) log r →
     (get_embeddings_batch server self [text] log).1
     = Raised (length_mismatch 1 (S (length rest)))).
Proof.
  intros Hstatus Hjson Hitems Hrest Hitem Hv. split; intros Hr.
  - rewrite (get_embedding_validate _ _ _ _ _ _ Hr Hstatus Hjson), Hitems.
    simpl. destruct (get_yields item v) as [Hget Hnone]; [done|].
    by rewrite Hget, result_bind_Ok, Hnone.
  - rewrite (get_embeddings_batch_validate_list _ _ _ _ _ _ _
               Hr Hstatus Hjson Hitems); [|done].
    by destruct rest.
Qed.

Lemma surplus_items_witness :
  let r := Examples.reply 200
             (JArr [Examples.item_of Examples.vec; JInt 3]) in
  (received (get_embedding (Examples.always r) Examples.client "hello") [] r →
   (get_embedding (Examples.always r) Examples.client "hello" []).1
   = Ok Examples.vec)
  ∧ (received (get_embeddings_batch (Examples.always r) Examples.client
                 ["hello"]) [] r →
     (get_embeddings_batch (Examples.always r) Examples.client
        ["hello"] []).1
     = Raised (length_mismatch 1 (S (length [JInt 3])))).
Proof.
  apply (surplus_items _ _ _ _
           (Examples.reply 200 (JArr [Examples.item_of Examples.vec; JInt 3]))
           {[ "embeddings" := JArr [Examples.item_of Examples.vec; JInt 3] ]}
           (Examples.item_of Examples.vec) [JInt 3] Examples.vec).
  - reflexivity.
  - reflexivity.
  - reflexivity.
  - discriminate.
  - by eexists.
  - discriminate.
Defined.

(** ** Items that are not objects *)

Lemma extract_stop_raised i pre item post acc vs e :
  Forall2 yields pre vs → Py.get item "embedding" = Raised e →
  extract i (pre ++ item :: post) acc = Raised e.
Proof.
  intros Hpre Hitem. revert i acc.
  induction Hpre as [|p v pre vs Hp _ IH]; intros i acc; simpl.
  - by rewrite Hitem.
  - destruct (get_yields _ _ Hp) as [Hget Hnone].
    by rewrite Hget, result_bind_Ok, Hnone, IH.
Qed.

(** X12. For a non-empty list of texts and a successful response with as
    many items as texts, if the item at index k is not an object (a number,
    a string, a list, a boolean, null) and every item before it is an object
    holding a non-null vector, [get_embeddings_batch] ends with Python's
    [AttributeError] naming the type of that item: such an item is not
    reported by the validation error that names an index. *)
Theorem batch_item_without_get server self texts log r data items k item :
  texts ≠ [] →
  received (get_embeddings_batch server self texts) log r →
  requests.raise_for_status r = Ok tt →
  requests.json r = Ok (JObj data) →
  data !! "embeddings" = Some (JArr items) →
  length items = length texts →
  items !! k = Some item →
  (∀ fields, item ≠ JObj fields) →
  (∀ j it, j < k → items !! j = Some it →
           ∃ v, has_embedding it v ∧ v ≠ JNull) →
  (get_embeddings_batch server self texts log).1
  = Raised (AttributeError
              ("'" +:+ Py.type_name item
               +:+ "' object has no attribute 'get'")).
Proof.
  intros Hne Hr Hstatus Hjson Hitems Hlen Hk Hitem Hbefore.
  rewrite (get_embeddings_batch_validate_list _ _ _ _ _ _ _
             Hr Hstatus Hjson Hitems); [|by intros ->].
  rewrite Hlen, Nat.eqb_refl.
  destruct (Forall_yields_Forall2 (take k items)) as [vs Hvs].
  { apply Forall_forall. intros it [j Hj]%list_elem_of_lookup_1.
    apply lookup_take_Some in Hj as [Hj Hlt]. by apply (Hbefore j). }
  rewrite <- (take_drop_middle items k item Hk).
  apply (extract_stop_raised 0 _ _ _ _ vs); [done|].
  destruct item; try done. by destruct (Hitem m).
Qed.

Lemma batch_item_without_get_witness :
  (get_embeddings_batch
     (Examples.always (Examples.reply 200
        (JArr [Examples.item_of Examples.vec; Examples.vec])))
     Examples.client ["a"; "b"] []).1
  = Raised (AttributeError "'list' object has no attribute 'get'").
Proof.
  apply (batch_item_without_get
           (Examples.always (Examples.reply 200
              (JArr [Examples.item_of Examples.vec; Examples.vec])))
           Examples.client ["a"; "b"] []
           (Examples.reply 200
              (JArr [Examples.item_of Examples.vec; Examples.vec]))
           {[ "embeddings" :=
                JArr [Examples.item_of Examples.vec; Examples.vec] ]}
           [Examples.item_of Examples.vec; Examples.vec] 1 Examples.vec).
  - discriminate.
  - by eexists.
  - reflexivity.
  - reflexivity.
  - reflexivity.
  - reflexivity.
  - reflexivity.
  - discriminate.
  - intros [|j] it Hj Hit; [|lia]. simpl in Hit. injection Hit as <-.
    exists Examples.vec. split; [by eexists|discriminate].
Defined.

(** ** Sequences of calls *)

Lemma perform_requests server self log c :
  ∃ new, perform server self log c = log ++ new
         ∧ new.*1 = requests_of self c.
Proof.
  destruct c as [text|[|text texts]]; unfold perform.
  - rewrite get_embedding_log. by eexists.
  - exists []. simpl. by rewrite app_nil_r.
  - rewrite get_embeddings_batch_log. by eexists.
Qed.

(** X13. Over any sequence of calls on one client, whatever each call
    returned or raised, the requests sent are, in order, exactly one per
    [get_embedding] and one per [get_embeddings_batch] with a non-empty
    list, each the wire request of that call alone: nothing is retried,
    split, merged or carried over from an earlier call. *)
Theorem session_requests server self calls log :
  ∃ new, session server self calls log = log ++ new
         ∧ new.*1 = flat_map (requests_of self) calls.
Proof.
  revert log. unfold session.
  induction calls as [|c calls IH]; intros log; simpl.
  - exists []. by rewrite app_nil_r.
  - destruct (perform_requests server self log c) as (new1 & -> & Hnew1).
    destruct (IH (log ++ new1)) as (new2 & -> & Hnew2).
    exists (new1 ++ new2). rewrite <- app_assoc. split; [done|].
    by rewrite fmap_app, Hnew1, Hnew2.
Qed.

(** ** The base URL, continued *)

Lemma append_empty_r s : s +:+ "" = s.
Proof.
  induction s as [|c s IH]; [done|].
  change (String c (s +:+ "") = String c s). by rewrite IH.
Qed.

(** X15. Constructing a client from the base URL an earlier client stored
    gives the same client: normalisation is idempotent. *)
Theorem base_url_idempotent key s model :
  __init__ key (base_url (__init__ key s model)) model
  = __init__ key s model.
Proof.
  unfold __init__. simpl. f_equal.
  destruct (rstrip_decompose s) as [Hlast _].
  rewrite <- (append_empty_r (Py.rstrip s "/")) at 1.
  by apply (rstrip_trailing_slashes _ 0).
Qed.
